(** * SwapSavvy Pro: the e-mail verification and pending-registration lifecycle

    A shallow embedding of
      - [app/models.py]                 (User, PendingUser, EmailVerification),
      - [app/services/user_service.py]  (UserService),
      - [app/routes/auth.py]            (signup, resend_code, recent_resends),
      - [app/routes/auth.py]            (verify_code, login, logout),
      - [run.py]                        (verify_code, resend_code),
    followed by the properties of the verification lifecycle.

    Conventions.
      - A table is a finite map from the integer primary key to the row.
      - A [datetime] is a number of microseconds; every call of
        [datetime.utcnow()] in the source is an explicit argument of the
        function that makes it.
      - [random.randint] and the outcome of the mail transport are explicit
        arguments as well.
      - The database is SQLite (config.py): rowids are allocated as
        [max + 1], UNIQUE columns are enforced, foreign keys are not. *)

From Stdlib Require Import ZArith Lia Ascii Sorted.
From stdpp Require Import gmap strings list fin_maps pretty.

Open Scope Z_scope.

(** ** Time *)

Abbreviation datetime := Z (only parsing).

Definition minutes (n : Z) : Z := n * 60000000.
Definition hours (n : Z) : Z := n * 3600000000.

(** [(a - b).total_seconds() < 3600], on microsecond counts. *)
Definition total_seconds_lt (delta : Z) (secs : Z) : bool :=
  bool_decide (delta < secs * 1000000).

(** ** Rows (app/models.py) *)

Module User.
Record t := mk {
  assigned_id : string;
  username : string;
  email : string;
  password_hash : string;
  name : option string;
  gender : option string;
  avatar : option string;
  is_verified : bool;
  (* [None] until the row is inserted: default=datetime.utcnow *)
  created_at : option datetime
}.
End User.

Module PendingUser.
Record t := mk {
  assigned_id : string;
  username : string;
  email : string;
  password_hash : string;
  name : option string;
  gender : option string;
  avatar : option string;
  created_at : datetime;
  expires_at : datetime;
  status : string
}.

(** [PendingUser.to_user] *)
Definition to_user (self : t) : User.t :=
  User.mk (assigned_id self) (username self) (email self)
          (password_hash self) (name self) (gender self) (avatar self)
          true None.

Definition set_status (s : string) (self : t) : t :=
  mk (assigned_id self) (username self) (email self) (password_hash self)
     (name self) (gender self) (avatar self) (created_at self)
     (expires_at self) s.
End PendingUser.

Module EmailVerification.
Record t := mk {
  user_id : option Z;
  pending_user_id : option Z;
  code : string;
  attempts : Z;
  resend_count : Z;
  last_sent_at : datetime;
  created_at : datetime;
  expires_at : datetime
}.

(** [EmailVerification.is_expired], with the clock reading [now]. *)
Definition is_expired (now : datetime) (self : t) : bool :=
  bool_decide (now > expires_at self).

Definition set_attempts (n : Z) (self : t) : t :=
  mk (user_id self) (pending_user_id self) (code self) n
     (resend_count self) (last_sent_at self) (created_at self)
     (expires_at self).
End EmailVerification.

(** ** The database *)

Record Db := mkDb {
  users : gmap Z User.t;
  pending_users : gmap Z PendingUser.t;
  email_verifications : gmap Z EmailVerification.t
}.

Definition with_users (f : gmap Z User.t → gmap Z User.t) (db : Db) : Db :=
  mkDb (f (users db)) (pending_users db) (email_verifications db).
Definition with_pending_users
    (f : gmap Z PendingUser.t → gmap Z PendingUser.t) (db : Db) : Db :=
  mkDb (users db) (f (pending_users db)) (email_verifications db).
Definition with_email_verifications
    (f : gmap Z EmailVerification.t → gmap Z EmailVerification.t)
    (db : Db) : Db :=
  mkDb (users db) (pending_users db) (f (email_verifications db)).

Section Queries.
Context {A : Type}.

(** The rows of a table that satisfy a [filter_by] condition. *)
Definition filter_by (P : A → bool) (t : gmap Z A) : list (Z * A) :=
  filter (λ r, P r.2) (map_to_list t).

(** [Query.first()] *)
Definition first (rows : list (Z * A)) : option (Z * A) := head rows.

(** [Query.delete()]: bulk delete of the rows that satisfy the condition. *)
Definition delete_where (P : A → bool) (t : gmap Z A) : gmap Z A :=
  filter (λ r, P r.2 = false) t.

(** The rowid SQLite gives to the next inserted row. *)
Definition next_id (t : gmap Z A) : Z :=
  1 + foldr Z.max 0 (map_to_list t).*1.

(** [db.session.add(row)] followed by the flush. *)
Definition add_row (row : A) (t : gmap Z A) : gmap Z A :=
  <[next_id t := row]> t.
End Queries.

Definition for_pending (pid : Z) (v : EmailVerification.t) : bool :=
  bool_decide (EmailVerification.pending_user_id v = Some pid).

(** [order_by(EmailVerification.created_at.desc()).first()]; among rows
    created at the same instant the one with the smallest rowid comes
    first. *)
Definition before_desc (a b : Z * EmailVerification.t) : bool :=
  bool_decide (EmailVerification.created_at a.2 > EmailVerification.created_at b.2)
  || (bool_decide (EmailVerification.created_at a.2 = EmailVerification.created_at b.2)
      && bool_decide (a.1 < b.1)).

Definition first_created_at_desc (rows : list (Z * EmailVerification.t))
    : option (Z * EmailVerification.t) :=
  foldr (λ r acc,
           match acc with
           | None => Some r
           | Some b => if before_desc r b then Some r else Some b
           end) None rows.

Definition latest_verification (db : Db) (pid : Z)
    : option (Z * EmailVerification.t) :=
  first_created_at_desc (filter_by (for_pending pid) (email_verifications db)).

Definition user_by_email (db : Db) (e : string) : option (Z * User.t) :=
  first (filter_by (λ u, bool_decide (User.email u = e)) (users db)).
Definition user_by_username (db : Db) (n : string) : option (Z * User.t) :=
  first (filter_by (λ u, bool_decide (User.username u = n)) (users db)).
Definition user_by_assigned_id (db : Db) (a : string) : option (Z * User.t) :=
  first (filter_by (λ u, bool_decide (User.assigned_id u = a)) (users db)).

Definition pending_by_email (db : Db) (e : string) :=
  first (filter_by (λ p, bool_decide (PendingUser.email p = e)) (pending_users db)).
Definition pending_by_username (db : Db) (n : string) :=
  first (filter_by (λ p, bool_decide (PendingUser.username p = n)) (pending_users db)).
Definition pending_by_assigned_id (db : Db) (a : string) :=
  first (filter_by (λ p, bool_decide (PendingUser.assigned_id p = a)) (pending_users db)).

(** ** Exceptions *)

Inductive exn :=
| IntegrityError
| RuntimeError (msg : string).

Inductive result (A : Type) :=
| Return (a : A)
| Raise (e : exn).
Arguments Return {A} a.
Arguments Raise {A} e.

(** ** UserService (app/services/user_service.py) *)

(** [f"{n:0{width}d}"] for [0 <= n]: the decimal digits, zero-padded on the
    left to [width] characters. *)
Definition format_0d (width : nat) (n : Z) : string :=
  let s := pretty n in
  String.concat "" (replicate (width - String.length s)%nat "0"%string) +:+ s.

Definition format_06d : Z → string := format_0d 6.
Definition format_04d : Z → string := format_0d 4.

Record issue_env := mkIssueEnv {
  ie_rand : Z;          (* random.randint(0, 999999) *)
  ie_now : datetime;    (* utcnow() in the computation of expires_at *)
  ie_sent : datetime;   (* utcnow() passed as last_sent_at *)
  ie_created : datetime (* utcnow() of the created_at column default *)
}.

Definition new_verification (pending_user_id : Z) (e : issue_env)
    : EmailVerification.t :=
  EmailVerification.mk None (Some pending_user_id) (format_06d (ie_rand e))
                       0 0 (ie_sent e) (ie_created e)
                       (ie_now e + minutes 10).

(** [UserService.create_verification_code]: returns the code and the
    database after the commit. *)
Definition create_verification_code (db : Db) (pending_user_id : Z)
    (e : issue_env) : string * Db :=
  let code := format_06d (ie_rand e) in
  let db1 := with_email_verifications
               (delete_where (for_pending pending_user_id)) db in
  let db2 := with_email_verifications
               (add_row (new_verification pending_user_id e)) db1 in
  (code, db2).

(** The users table declares [assigned_id], [username] and [email] UNIQUE:
    the INSERT of a row that repeats one of them fails. *)
Definition violates_unique (db : Db) (u : User.t) : bool :=
  bool_decide (is_Some (user_by_assigned_id db (User.assigned_id u)))
  || bool_decide (is_Some (user_by_username db (User.username u)))
  || bool_decide (is_Some (user_by_email db (User.email u))).

(** The row as stored: column defaults fill what the object left unset. *)
Definition stored_user (created : datetime) (u : User.t) : User.t :=
  User.mk (User.assigned_id u) (User.username u) (User.email u)
          (User.password_hash u) (User.name u) (User.gender u)
          (User.avatar u) (User.is_verified u)
          (Some (default created (User.created_at u))).

(** [db.session.delete(pending)]: the [verifications] backref cascades
    ('all, delete-orphan'), so the registration's codes go with it. *)
Definition delete_pending (pid : Z) (db : Db) : Db :=
  with_pending_users (delete pid)
    (with_email_verifications (delete_where (for_pending pid)) db).

Definition verify_result : Type := result (option (Z * User.t) * string).

(** [UserService.verify_pending_user].  [now] is the clock read by
    [is_expired], [created] the one read by the [users.created_at] default.
    An exception leaves the transaction uncommitted. *)
Definition verify_pending_user (db : Db) (pending_id : Z) (code : string)
    (now created : datetime) : verify_result * Db :=
  match pending_users db !! pending_id with
  | None => (Return (None, "Invalid session"%string), db)
  | Some pending =>
    match latest_verification db pending_id with
    | None => (Return (None, "Verification code expired"%string), db)
    | Some (vid, verification) =>
      if EmailVerification.is_expired now verification then
        (Return (None, "Verification code expired"%string), db)
      else if bool_decide (EmailVerification.attempts verification >= 5) then
        (Return (None, "Too many attempts"%string), db)
      else if bool_decide (EmailVerification.code verification ≠ code) then
        (Return (None, "Invalid verification code"%string),
         with_email_verifications
           (<[vid := EmailVerification.set_attempts
                       (EmailVerification.attempts verification + 1)
                       verification]>) db)
      else if bool_decide (is_Some (user_by_email db (PendingUser.email pending)))
              || bool_decide (is_Some (user_by_username db (PendingUser.username pending)))
      then
        (Return (None, "User already exists"%string),
         with_pending_users
           (<[pending_id := PendingUser.set_status "expired" pending]>)
           (with_email_verifications (delete vid) db))
      else
        let user := PendingUser.to_user pending in
        if violates_unique db user then (Raise IntegrityError, db)
        else
          let uid := next_id (users db) in
          let row := stored_user created user in
          (Return (Some (uid, row), "Success"%string),
           delete_pending pending_id
             (with_email_verifications (delete vid)
                (with_users (add_row row) db)))
    end
  end.

(** ** The routes (app/routes/auth.py) *)

Record response := mkResponse {
  flashed : string * string;          (* flash(message, category) *)
  location : string;                  (* redirect(url_for(endpoint)) *)
  mailed : option (string * string * string)
                                      (* send_verification_email(email, username, code) *)
}.

Record App := mkApp {
  db : Db;
  recent_resends : gmap string (datetime * Z)
}.

Record resend_env := mkResendEnv {
  re_current_time : datetime;  (* current_time = datetime.utcnow() *)
  re_issue : issue_env;        (* the reads of create_verification_code *)
  re_mail_ok : bool            (* what send_verification_email returns *)
}.

Definition user_key (pid : Z) : string := "resend_pending_" +:+ pretty pid.

(** The rate limiting check of [resend_code]. *)
Definition rate_limited (rr : gmap string (datetime * Z)) (key : string)
    (current_time : datetime) : bool :=
  match rr !! key with
  | Some (last_resend, count) =>
      total_seconds_lt (current_time - last_resend) 3600
      && bool_decide (count >= 3)
  | None => false
  end.

(** The update of [recent_resends] after a code was issued. *)
Definition note_resend (rr : gmap string (datetime * Z)) (key : string)
    (current_time : datetime) : gmap string (datetime * Z) :=
  match rr !! key with
  | Some (_, count) => <[key := (current_time, count + 1)]> rr
  | None => <[key := (current_time, 1)]> rr
  end.

(** [resend_code], the body of the POST /resend-code handler (what runs once
    the [limiter.limit] decorator has let the request through). *)
Definition resend_code (app : App) (session : gmap string Z) (e : resend_env)
    : response * App * gmap string Z :=
  match session !! "pending_id"%string with
  | None =>
      (mkResponse ("Please complete signup first", "danger")%string
                  "auth.signup" None, app, session)
  | Some pid =>
    match pending_users (db app) !! pid with
    | None =>
        (mkResponse ("Invalid session. Please sign up again.", "danger")%string
                    "auth.signup" None,
         app, delete "pending_id"%string session)
    | Some pending =>
      let key := user_key pid in
      let current_time := re_current_time e in
      if rate_limited (recent_resends app) key current_time then
        (mkResponse ("Too many resend attempts. Please wait before trying again.",
                     "danger")%string "auth.verify_code" None,
         app, session)
      else
        let '(code, db') := create_verification_code (db app) pid (re_issue e) in
        let rr := note_resend (recent_resends app) key current_time in
        let mail := Some (PendingUser.email pending,
                          PendingUser.username pending, code) in
        (mkResponse
           (if re_mail_ok e
            then ("New verification code sent", "success")%string
            else ("Failed to send verification email. Please check your email settings.",
                  "danger")%string)
           "auth.verify_code" mail,
         mkApp db' rr, session)
    end
  end.

(** *** Signup *)

(** [str.strip] and [str.lower] on ASCII text. *)
Definition is_space (c : ascii) : bool :=
  let n := nat_of_ascii c in
  ((9 <=? n) && (n <=? 13) || (28 <=? n) && (n <=? 32))%nat.

Fixpoint lstrip (s : string) : string :=
  match s with
  | EmptyString => EmptyString
  | String c s' => if is_space c then lstrip s' else s
  end.

Fixpoint rstrip (s : string) : string :=
  match s with
  | EmptyString => EmptyString
  | String c s' =>
      match rstrip s' with
      | EmptyString => if is_space c then EmptyString else String c EmptyString
      | r => String c r
      end
  end.

Definition strip (s : string) : string := rstrip (lstrip s).

Definition lower_ascii (c : ascii) : ascii :=
  let n := nat_of_ascii c in
  if ((65 <=? n) && (n <=? 90))%nat then ascii_of_nat (n + 32) else c.

Fixpoint lower (s : string) : string :=
  match s with
  | EmptyString => EmptyString
  | String c s' => String (lower_ascii c) (lower s')
  end.

Definition assigned_id_taken (db : Db) (candidate : string) : bool :=
  bool_decide (is_Some (user_by_assigned_id db candidate))
  || bool_decide (is_Some (pending_by_assigned_id db candidate)).

(** The loop of [generate_assigned_id]; [rand i] is the [i]-th draw of
    [random.randint(0, 9999)]. *)
Fixpoint generate_assigned_id_from (db : Db) (prefix : string)
    (rand : nat → Z) (i tries : nat) : result string :=
  match tries with
  | O => Raise (RuntimeError "Failed to generate unique assigned ID")
  | S tries' =>
      let candidate := prefix +:+ format_04d (rand i) in
      if assigned_id_taken db candidate
      then generate_assigned_id_from db prefix rand (S i) tries'
      else Return candidate
  end.

(** [UserService.generate_assigned_id] *)
Definition generate_assigned_id (db : Db) (username : string)
    (length_prefix tries : nat) (rand : nat → Z) : result string :=
  let prefix :=
    String.substring 0 length_prefix
      (lower (strip username)
       +:+ String.concat "" (replicate length_prefix "x"%string)) in
  generate_assigned_id_from db prefix rand 0 tries.

(** [UserService.get_avatar_path] *)
Definition get_avatar_path (gender : option string) : string :=
  let gender :=
    lower (match gender with
           | Some g => if bool_decide (g = ""%string) then "other"%string else g
           | None => "other"%string
           end) in
  let gender :=
    if bool_decide (gender = "male"%string)
       || bool_decide (gender = "female"%string)
       || bool_decide (gender = "other"%string)
    then gender else "other"%string in
  ("avatars/" +:+ gender +:+ "_default.png")%string.

Record signup_env := mkSignupEnv {
  se_rand_id : nat → Z;       (* the draws of generate_assigned_id *)
  se_password_hash : string;  (* generate_password_hash(password) *)
  se_created : datetime;      (* utcnow() of pending_users.created_at *)
  se_expires_now : datetime;  (* utcnow() of pending_users.expires_at *)
  se_issue : issue_env;       (* the reads of create_verification_code *)
  se_mail_ok : bool           (* what send_verification_email returns *)
}.

(** [UserService.create_pending_user]; an exception rolls the session back
    and is raised again. *)
Definition create_pending_user (db : Db) (username email : string)
    (name gender : string) (e : signup_env)
    : result (Z * PendingUser.t) * Db :=
  match generate_assigned_id db username 3 30 (se_rand_id e) with
  | Raise ex => (Raise ex, db)
  | Return assigned_id =>
      let avatar := get_avatar_path (Some gender) in
      let pending :=
        PendingUser.mk assigned_id username email (se_password_hash e)
                       (Some name) (Some gender) (Some avatar)
                       (se_created e) (se_expires_now e + hours 24)
                       "pending" in
      let pid := next_id (pending_users db) in
      (Return (pid, pending), with_pending_users (add_row pending) db)
  end.

Record signup_form := mkSignupForm {
  f_username : string;
  f_email : string;
  f_password : string;
  f_confirm_password : string;
  f_name : option string;
  f_gender : option string
}.

(** [signup], the body of the POST /signup handler (what runs once the
    [limiter.limit] decorator has let the request through). *)
Definition signup (db : Db) (session : gmap string Z) (form : signup_form)
    (e : signup_env) : response * Db * gmap string Z :=
  let username := strip (f_username form) in
  let email := lower (strip (f_email form)) in
  let password := f_password form in
  let confirm_password := f_confirm_password form in
  let name := strip (default ""%string (f_name form)) in
  let gender := default "other"%string (f_gender form) in
  if bool_decide (password ≠ confirm_password) then
    (mkResponse ("Passwords do not match", "danger")%string "auth.signup" None,
     db, session)
  else if (String.length password <? 8)%nat then
    (mkResponse ("Password must be at least 8 characters long", "danger")%string
                "auth.signup" None, db, session)
  else if bool_decide (is_Some (user_by_email db email))
          || bool_decide (is_Some (pending_by_email db email)) then
    (mkResponse ("Email already registered or pending verification", "danger")%string
                "auth.signup" None, db, session)
  else if bool_decide (is_Some (user_by_username db username))
          || bool_decide (is_Some (pending_by_username db username)) then
    (mkResponse ("Username already taken or pending", "danger")%string
                "auth.signup" None, db, session)
  else
    match create_pending_user db username email name gender e with
    | (Raise _, db0) =>
        (mkResponse ("An error occurred during registration", "danger")%string
                    "auth.signup" None, db0, session)
    | (Return (pid, pending), db1) =>
        let '(code, db2) := create_verification_code db1 pid (se_issue e) in
        let mail := Some (PendingUser.email pending,
                          PendingUser.username pending, code) in
        if se_mail_ok e then
          (mkResponse ("Verification code sent to your email", "success")%string
                      "auth.verify_code" mail,
           db2, <["pending_id"%string := pid]> session)
        else
          (mkResponse
             ("Failed to send verification email. Please check your email settings.",
              "danger")%string "auth.signup" mail,
           delete_pending pid db2, session)
    end.

(** *** Verifying, logging in and out *)

Inductive target :=
| RedirectTo (endpoint : string)             (* redirect(url_for(endpoint)) *)
| Render (template : string) (email : option string).
                                             (* render_template(template, email=...) *)

Record reply := mkReply {
  r_flash : option (string * string);    (* flash(message, category) *)
  r_target : target;
  r_welcome : option (string * string)   (* send_welcome_email(email, username) *)
}.

Inductive verify_request :=
| VerifyGET
| VerifyPOST (code : string).   (* request.form['code'] *)

(** [verify_code], the handler of /verify.  An exception of the service
    leaves the handler. *)
Definition verify_code (db : Db) (session : gmap string Z)
    (req : verify_request) (now created : datetime)
    : result reply * Db * gmap string Z :=
  match session !! "pending_id"%string with
  | None =>
      (Return (mkReply (Some ("Please complete signup first", "danger")%string)
                       (RedirectTo "auth.signup") None), db, session)
  | Some pid =>
    match pending_users db !! pid with
    | None =>
        (Return (mkReply (Some ("Invalid session. Please sign up again.",
                                "danger")%string)
                         (RedirectTo "auth.signup") None),
         db, delete "pending_id"%string session)
    | Some pending =>
      match req with
      | VerifyGET =>
          (Return (mkReply None
                           (Render "verify.html" (Some (PendingUser.email pending)))
                           None), db, session)
      | VerifyPOST form_code =>
          let code := strip form_code in
          match verify_pending_user db pid code now created with
          | (Raise ex, db') => (Raise ex, db', session)
          | (Return (Some (_, user), _), db') =>
              (Return (mkReply
                         (Some ("Email verified successfully! You can now login.",
                                "success")%string)
                         (RedirectTo "auth.login")
                         (Some (User.email user, User.username user))),
               db', delete "pending_id"%string session)
          | (Return (None, message), db') =>
              (Return (mkReply (Some (message, "danger"%string))
                               (RedirectTo "auth.verify_code") None),
               db', session)
          end
      end
    end
  end.

(** [UserService.authenticate_user]; [check_password_hash] is werkzeug's. *)
Definition authenticate_user (check_password_hash : string → string → bool)
    (db : Db) (login_input password : string) : option (Z * User.t) :=
  match first (filter_by (λ u, bool_decide (User.email u = login_input)
                               || bool_decide (User.username u = login_input))
                         (users db)) with
  | Some (uid, user) =>
      if check_password_hash (User.password_hash user) password
      then Some (uid, user) else None
  | None => None
  end.



Inductive login_request :=
| LoginGET
| LoginPOST (login_input password : string).

(** [login], the handler of /login. *)
Definition login (check_password_hash : string → string → bool)
    (db : Db) (session : gmap string Z) (req : login_request)
    : reply * gmap string Z :=
  match req with
  | LoginGET => (mkReply None (Render "login.html" None) None, session)
  | LoginPOST form_login_input password =>
      let login_input := lower (strip form_login_input) in
      match authenticate_user check_password_hash db login_input password with
      | Some (uid, user) =>
          if negb (User.is_verified user) then
            (mkReply (Some ("Please verify your email before logging in",
                            "warning")%string)
                     (RedirectTo "auth.verify_code") None,
             <["pending_user_id"%string := uid]> session)
          else
            (mkReply (Some ("Welcome back, " +:+ User.username user +:+ "!",
                            "success"%string))
                     (RedirectTo "main.dashboard") None,
             delete "is_guest"%string (<["user_id"%string := uid]> session))
      | None =>
          (mkReply (Some ("Invalid credentials", "danger")%string)
                   (RedirectTo "auth.login") None, session)
      end
  end.

(** [logout], the handler of /logout. *)
Definition logout (session : gmap string Z) : reply * gmap string Z :=
  (mkReply (Some ("You have been logged out", "info")%string)
           (RedirectTo "main.landing") None, ∅).

(** ** The single-file application (run.py)

    run.py holds an earlier copy of the same handlers, with the service code
    written out in the handler. *)

Module Run.

(** [resend_code] of run.py. *)
Definition resend_code (app : App) (session : gmap string Z) (e : resend_env)
    : response * App * gmap string Z :=
  match session !! "pending_id"%string with
  | None =>
      (mkResponse ("Please complete signup first", "danger")%string
                  "signup" None, app, session)
  | Some pid =>
    match pending_users (db app) !! pid with
    | None =>
        (mkResponse ("Invalid session. Please sign up again.", "danger")%string
                    "signup" None,
         app, delete "pending_id"%string session)
    | Some pending =>
      let user_key := ("resend_pending_" +:+ pretty pid)%string in
      let current_time := re_current_time e in
      let throttled :=
        match recent_resends app !! user_key with
        | Some (last_resend, count) =>
            (* current_time - last_resend < timedelta(hours=1) and count >= 3 *)
            bool_decide (current_time - last_resend < hours 1)
            && bool_decide (count >= 3)
        | None => false
        end in
      if throttled then
        (mkResponse ("Too many resend attempts. Please wait before trying again.",
                     "danger")%string "verify_code" None,
         app, session)
      else
        let code := format_06d (ie_rand (re_issue e)) in
        let expires_at := ie_now (re_issue e) + minutes 10 in
        let table :=
          delete_where (for_pending pid) (email_verifications (db app)) in
        let verification :=
          EmailVerification.mk None (Some pid) code 0 0
                               (ie_sent (re_issue e)) (ie_created (re_issue e))
                               expires_at in
        let db' :=
          mkDb (users (db app)) (pending_users (db app))
               (add_row verification table) in
        let rr :=
          match recent_resends app !! user_key with
          | Some (_, count) =>
              <[user_key := (current_time, count + 1)]> (recent_resends app)
          | None => <[user_key := (current_time, 1)]> (recent_resends app)
          end in
        (mkResponse
           (if re_mail_ok e
            then ("New verification code sent", "success")%string
            else ("Failed to send verification email. Please check SMTP settings.",
                  "danger")%string)
           "verify_code"
           (Some (PendingUser.email pending, PendingUser.username pending, code)),
         mkApp db' rr, session)
    end
  end.

(** The [users] row as run.py stores it: its [User] model gives [avatar]
    the default 'img/default-avatar.png' (the package's model has none), so
    an account made from a registration without avatar gets that path. *)
Definition stored_user (created : datetime) (u : User.t) : User.t :=
  User.mk (User.assigned_id u) (User.username u) (User.email u)
          (User.password_hash u) (User.name u) (User.gender u)
          (Some (default "img/default-avatar.png"%string (User.avatar u)))
          (User.is_verified u)
          (Some (default created (User.created_at u))).

(** [verify_code] of run.py.  The welcome mail is sent before the commit;
    a failing commit is rolled back and reported.  The page of a GET is
    also handed [debug_code], which is None unless the application runs in
    debug mode; the reply keeps the e-mail only. *)
Definition verify_code (db : Db) (session : gmap string Z)
    (req : verify_request) (now created : datetime)
    : reply * Db * gmap string Z :=
  match session !! "pending_id"%string with
  | None =>
      (mkReply (Some ("Please complete signup first", "danger")%string)
               (RedirectTo "signup") None, db, session)
  | Some pid =>
    match pending_users db !! pid with
    | None =>
        (mkReply (Some ("Invalid session. Please sign up again.",
                        "danger")%string)
                 (RedirectTo "signup") None,
         db, delete "pending_id"%string session)
    | Some pending =>
      let verification := latest_verification db pid in
      match req with
      | VerifyGET =>
          (mkReply None (Render "verify.html" (Some (PendingUser.email pending)))
                   None, db, session)
      | VerifyPOST form_code =>
          let code := strip form_code in
          match verification with
          | None =>
              (mkReply (Some ("Verification code expired. Please request a new one.",
                              "danger")%string)
                       (RedirectTo "verify_code") None, db, session)
          | Some (vid, v) =>
            if bool_decide (EmailVerification.expires_at v < now) then
              (mkReply (Some ("Verification code expired. Please request a new one.",
                              "danger")%string)
                       (RedirectTo "verify_code") None, db, session)
            else if bool_decide (EmailVerification.attempts v >= 5) then
              (mkReply (Some ("Too many attempts. Please request a new code.",
                              "danger")%string)
                       (RedirectTo "verify_code") None, db, session)
            else if bool_decide (EmailVerification.code v = code) then
              if bool_decide (is_Some (user_by_email db (PendingUser.email pending)))
                 || bool_decide (is_Some (user_by_username db
                                            (PendingUser.username pending)))
              then
                (mkReply
                   (Some ("A user with same email/username already exists. Please try logging in.",
                          "danger")%string)
                   (RedirectTo "login") None,
                 with_pending_users
                   (<[pid := PendingUser.set_status "expired" pending]>)
                   (with_email_verifications (delete vid) db),
                 delete "pending_id"%string session)
              else
                let user := PendingUser.to_user pending in
                let welcome := Some (User.email user, User.username user) in
                if violates_unique db user then
                  (mkReply
                     (Some ("An error occurred finalizing registration. Please try again.",
                            "danger")%string)
                     (RedirectTo "signup") welcome, db, session)
                else
                  (mkReply
                     (Some ("Email verified successfully! You can now login.",
                            "success")%string)
                     (RedirectTo "login") welcome,
                   delete_pending pid
                     (with_email_verifications (delete vid)
                        (with_users (add_row (stored_user created user)) db)),
                   delete "pending_id"%string session)
            else
              (mkReply (Some ("Invalid verification code", "danger")%string)
                       (RedirectTo "verify_code") None,
               with_email_verifications
                 (<[vid := EmailVerification.set_attempts
                             (EmailVerification.attempts v + 1) v]>) db,
               session)
          end
      end
    end
  end.

End Run.

(** * Vocabulary of the properties *)

(** The rows of [email_verifications] that belong to registration [pid]. *)
Definition codes_of (db : Db) (pid : Z) : list (Z * EmailVerification.t) :=
  filter_by (for_pending pid) (email_verifications db).

(** What [create_verification_code] leaves in the table. *)
Definition issued_id (db : Db) (pid : Z) : Z :=
  next_id (delete_where (for_pending pid) (email_verifications db)).

(** An account already holds the registration's e-mail or username. *)
Definition account_conflict (db : Db) (pending : PendingUser.t) : Prop :=
  ∃ k u, users db !! k = Some u
         ∧ (User.email u = PendingUser.email pending
            ∨ User.username u = PendingUser.username pending).

(** An account already holds the registration's [assigned_id]. *)
Definition assigned_id_conflict (db : Db) (pending : PendingUser.t) : Prop :=
  ∃ k u, users db !! k = Some u
         ∧ User.assigned_id u = PendingUser.assigned_id pending.

(** A run of submissions against one registration: each element is the
    submitted code with the two clock readings of that call. *)
Fixpoint submit_codes (db : Db) (pid : Z)
    (subs : list (string * datetime * datetime)) : Db :=
  match subs with
  | [] => db
  | (code, now, created) :: subs' =>
      submit_codes (verify_pending_user db pid code now created).2 pid subs'
  end.

(** The call got past the three checks on the code: its outcome is the
    promotion or, when an account already holds the identity, "User already
    exists" (or the UNIQUE failure of the INSERT). *)
Definition code_accepted (r : verify_result) : bool :=
  match r with
  | Return (Some _, _) => true
  | Return (None, msg) => bool_decide (msg = "User already exists"%string)
  | Raise _ => true
  end.

Definition is_success (r : verify_result) : bool :=
  match r with
  | Return (Some _, msg) => bool_decide (msg = "Success"%string)
  | _ => false
  end.

(** The database with every registration's status blanked. *)
Definition erase_status (db : Db) : Db :=
  with_pending_users (fmap (PendingUser.set_status "")) db.

(** Two databases that differ at most in the status of registrations. *)
Definition same_up_to_status (db1 db2 : Db) : Prop :=
  erase_status db1 = erase_status db2.

Arguments erase_status : simpl never.

(** A run of resend requests of one session; the result lists the clock
    readings of the requests that were answered with a new code. *)
Fixpoint resend_times (app : App) (session : gmap string Z)
    (es : list resend_env) : list datetime :=
  match es with
  | [] => []
  | e :: es' =>
      let '(resp, app', session') := resend_code app session e in
      (if mailed resp is Some _ then [re_current_time e] else [])
      ++ resend_times app' session' es'
  end.

(** [t] lies in the hour that starts at [w]. *)
Definition in_hour_from (w t : datetime) : Prop := w ≤ t < w + hours 1.

Global Instance in_hour_from_dec w t : Decision (in_hour_from w t).
Proof. unfold in_hour_from. apply _. Defined.

Definition resends_within (w : datetime) (times : list datetime) : nat :=
  length (filter (in_hour_from w) times).

(** Decimal digits. *)
Definition is_digit (c : ascii) : bool :=
  let n := nat_of_ascii c in ((48 <=? n) && (n <=? 57))%nat.

Fixpoint all_digits (s : string) : bool :=
  match s with
  | EmptyString => true
  | String c s' => is_digit c && all_digits s'
  end.


(** *** Stores the handlers can produce *)

(** A request to one of the three handlers of the lifecycle, with the
    session cookie it comes with and what the handler reads from outside. *)
Inductive request :=
| ReqSignup (session : gmap string Z) (form : signup_form) (e : signup_env)
| ReqResend (session : gmap string Z) (e : resend_env)
| ReqVerify (session : gmap string Z) (req : verify_request)
            (now created : datetime).

Definition handle (app : App) (r : request) : App :=
  match r with
  | ReqSignup session form e =>
      mkApp (signup (db app) session form e).1.2 (recent_resends app)
  | ReqResend session e => (resend_code app session e).1.2
  | ReqVerify session req now created =>
      mkApp (verify_code (db app) session req now created).1.2
            (recent_resends app)
  end.

(** The application state after a sequence of requests. *)
Definition serve (app : App) (rs : list request) : App := foldl handle app rs.

Definition empty_app : App := mkApp (mkDb ∅ ∅ ∅) ∅.

Record store_ok (db : Db) : Prop := mkStoreOk {
  (* no account holds the assigned_id of a registration *)
  ok_free : ∀ k p, pending_users db !! k = Some p → ¬ assigned_id_conflict db p;
  (* no two registrations share an assigned_id, an e-mail or a username *)
  ok_distinct :
    ∀ k1 p1 k2 p2,
      pending_users db !! k1 = Some p1 → pending_users db !! k2 = Some p2 →
      PendingUser.assigned_id p1 = PendingUser.assigned_id p2
      ∨ PendingUser.email p1 = PendingUser.email p2
      ∨ PendingUser.username p1 = PendingUser.username p2 →
      k1 = k2;
  (* every code belongs to an existing registration *)
  ok_owned :
    ∀ k v, email_verifications db !! k = Some v →
           ∃ pid, EmailVerification.pending_user_id v = Some pid
                  ∧ is_Some (pending_users db !! pid);
  (* a registration has at most one code *)
  ok_one :
    ∀ k1 v1 k2 v2,
      email_verifications db !! k1 = Some v1 →
      email_verifications db !! k2 = Some v2 →
      EmailVerification.pending_user_id v1
      = EmailVerification.pending_user_id v2 →
      k1 = k2;
  (* the attempts counter stays within 0..5 *)
  ok_attempts :
    ∀ k v, email_verifications db !! k = Some v →
           0 ≤ EmailVerification.attempts v ≤ 5;
  (* every account is verified *)
  ok_verified : ∀ k u, users db !! k = Some u → User.is_verified u = true;
  (* a registration is 'pending' or 'expired' *)
  ok_status :
    ∀ k p, pending_users db !! k = Some p →
           PendingUser.status p = "pending"%string
           ∨ PendingUser.status p = "expired"%string
}.

(** * A worked example

    Alice has signed up (registration 1) and was sent the code 004711 at
    clock reading 1000. *)

Definition alice : PendingUser.t :=
  PendingUser.mk "ali0042" "alice" "alice@x.com" "pbkdf2:sha256:1"
                 (Some "Alice"%string) (Some "female"%string)
                 (Some "avatars/female_default.png"%string)
                 900 (900 + hours 24) "pending".

Definition alice_issue : issue_env := mkIssueEnv 4711 1000 1001 1002.

Definition alice_code : EmailVerification.t := new_verification 1 alice_issue.

Definition db_signed_up : Db := mkDb ∅ {[ 1 := alice ]} ∅.

Definition db_alice : Db := mkDb ∅ {[ 1 := alice ]} {[ 1 := alice_code ]}.

Definition alice_session : gmap string Z := {[ "pending_id"%string := 1 ]}.

(** Somebody else registered Alice's e-mail address in the meantime. *)
Definition mallory : User.t :=
  User.mk "mal0007" "mallory" "alice@x.com" "pbkdf2:sha256:2"
          None None None true (Some 950).

Definition db_taken : Db :=
  mkDb {[ 1 := mallory ]} {[ 1 := alice ]} {[ 1 := alice_code ]}.

(** Alice's code after five wrong submissions. *)
Definition db_locked : Db :=
  mkDb ∅ {[ 1 := alice ]}
       {[ 1 := EmailVerification.set_attempts 5 alice_code ]}.

(** A resend request at clock reading [t]. *)
Definition resend_at (t : datetime) : resend_env :=
  mkResendEnv t (mkIssueEnv 1234 t t t) true.

Definition seconds (n : Z) : Z := n * 1000000.

(** Three resends were made, the last one at 2 s. *)
Definition app_throttled : App :=
  mkApp db_alice {[ user_key 1 := (seconds 2, 3) ]}.

Definition bob_form : signup_form :=
  mkSignupForm " Bob " "BOB@x.com " "12345678" "12345678" None None.

Definition bob_env (mail_ok : bool) : signup_env :=
  mkSignupEnv (λ _, 42) "pbkdf2:sha256:3" 5000 5000
              (mkIssueEnv 815 5001 5001 5001) mail_ok.

Definition db_alice_expired : Db :=
  with_pending_users (<[1 := PendingUser.set_status "expired" alice]>) db_alice.


(** * Properties *)

(** ** Tables and queries *)

Section QueryFacts.
Context {A : Type}.
Implicit Types (t : gmap Z A) (P : A → bool).

Lemma elem_of_filter_by P t k v :
  (k, v) ∈ filter_by P t ↔ t !! k = Some v ∧ P v = true.
Proof.
  unfold filter_by. rewrite list_elem_of_filter, elem_of_map_to_list. simpl.
  split; intros [H1 H2]; split; try done; by apply Is_true_true.
Qed.

Lemma first_filter_by_None P t :
  first (filter_by P t) = None ↔ ∀ k v, t !! k = Some v → P v = false.
Proof.
  unfold first. rewrite head_None. split.
  - intros Hnil k v Hk. destruct (P v) eqn:HP; [|done].
    assert ((k, v) ∈ filter_by P t) as Hin by by apply elem_of_filter_by.
    rewrite Hnil in Hin. by apply elem_of_nil in Hin.
  - intros Hall. destruct (filter_by P t) as [|[k v] l] eqn:E; [done|].
    assert ((k, v) ∈ filter_by P t) as Hin by (rewrite E; left).
    apply elem_of_filter_by in Hin as [Hk HP].
    rewrite (Hall _ _ Hk) in HP. discriminate.
Qed.

Lemma first_filter_by_Some P t :
  is_Some (first (filter_by P t)) ↔ ∃ k v, t !! k = Some v ∧ P v = true.
Proof.
  split.
  - intros [[k v] Hf]. exists k, v. apply elem_of_filter_by.
    unfold first in Hf. destruct (filter_by P t); simplify_eq/=. left.
  - intros (k & v & Hk & HP).
    destruct (first (filter_by P t)) eqn:E; [by eexists|].
    rewrite first_filter_by_None in E. rewrite (E _ _ Hk) in HP. discriminate.
Qed.

Lemma NoDup_filter_by P t : NoDup (filter_by P t).
Proof. apply NoDup_filter, NoDup_map_to_list. Qed.

Lemma filter_by_singleton P t k v :
  (∀ k' v', t !! k' = Some v' ∧ P v' = true ↔ k' = k ∧ v' = v) →
  filter_by P t = [(k, v)].
Proof.
  intros Hchar.
  assert (∀ r, r ∈ filter_by P t ↔ r = (k, v)) as Hin.
  { intros [k' v']. rewrite elem_of_filter_by, Hchar.
    split; [by intros [-> ->]|by intros [= -> ->]]. }
  pose proof (NoDup_filter_by P t) as Hnd.
  destruct (filter_by P t) as [|r [|r' l]].
  - exfalso. eapply elem_of_nil, Hin. reflexivity.
  - f_equal. apply Hin. left.
  - exfalso. assert (r = (k, v)) as -> by (apply Hin; left).
    assert (r' = (k, v)) as -> by (apply Hin; right; left).
    apply NoDup_cons in Hnd as [Hnd _]. apply Hnd. left.
Qed.

Lemma lookup_delete_where P t k v :
  delete_where P t !! k = Some v ↔ t !! k = Some v ∧ P v = false.
Proof. unfold delete_where. by rewrite map_lookup_filter_Some. Qed.

Lemma foldr_max_le (l : list Z) k : k ∈ l → k ≤ foldr Z.max 0 l.
Proof.
  induction l as [|x l IH]; intros Hin.
  - by apply elem_of_nil in Hin.
  - apply elem_of_cons in Hin as [->|Hin]; simpl; [lia|].
    specialize (IH Hin). lia.
Qed.

Lemma next_id_fresh t : t !! next_id t = None.
Proof.
  destruct (t !! next_id t) as [v|] eqn:E; [|done].
  assert (next_id t ∈ (map_to_list t).*1) as Hin.
  { apply list_elem_of_fmap. exists (next_id t, v). split; [done|].
    by apply elem_of_map_to_list. }
  apply foldr_max_le in Hin. unfold next_id in Hin at 1. lia.
Qed.

Lemma lookup_add_row_old row t k v :
  t !! k = Some v → add_row row t !! k = Some v.
Proof.
  intros Hk. unfold add_row. rewrite lookup_insert_ne; [done|].
  intros <-. by rewrite next_id_fresh in Hk.
Qed.

Lemma lookup_add_row row t k v :
  add_row row t !! k = Some v ↔
  (k = next_id t ∧ v = row) ∨ t !! k = Some v.
Proof.
  unfold add_row. destruct (decide (next_id t = k)) as [<-|Hne].
  - rewrite lookup_insert_eq, next_id_fresh. split.
    + intros [= ->]. by left.
    + by intros [[_ ->]|?].
  - rewrite lookup_insert_ne by done. split; [by right|].
    by intros [[-> _]|?].
Qed.

Lemma size_add_row row t : size (add_row row t) = S (size t).
Proof. apply map_size_insert_None, next_id_fresh. Qed.
End QueryFacts.

(** ** The codes of a pending registration *)

Lemma for_pending_true pid v :
  for_pending pid v = true ↔ EmailVerification.pending_user_id v = Some pid.
Proof. unfold for_pending. by rewrite bool_decide_eq_true. Qed.

Lemma for_pending_false pid v :
  for_pending pid v = false ↔ EmailVerification.pending_user_id v ≠ Some pid.
Proof. unfold for_pending. by rewrite bool_decide_eq_false. Qed.

Lemma elem_of_codes_of db pid k v :
  (k, v) ∈ codes_of db pid ↔
  email_verifications db !! k = Some v
  ∧ EmailVerification.pending_user_id v = Some pid.
Proof. unfold codes_of. by rewrite elem_of_filter_by, for_pending_true. Qed.

Lemma first_created_at_desc_elem rows r :
  first_created_at_desc rows = Some r → r ∈ rows.
Proof.
  revert r. induction rows as [|x rows IH]; intros r; simpl; [done|].
  destruct (first_created_at_desc rows) as [b|] eqn:E.
  - destruct (before_desc x b); intros [= <-]; [left|right; by apply IH].
  - intros [= <-]. left.
Qed.

Lemma first_created_at_desc_None rows :
  first_created_at_desc rows = None ↔ rows = [].
Proof.
  destruct rows as [|x rows]; simpl; [done|].
  destruct (first_created_at_desc rows) as [b|]; [destruct (before_desc x b)|];
    done.
Qed.

Lemma latest_verification_Some db pid vid v :
  latest_verification db pid = Some (vid, v) →
  email_verifications db !! vid = Some v
  ∧ EmailVerification.pending_user_id v = Some pid.
Proof.
  intros H. apply first_created_at_desc_elem in H.
  by apply elem_of_codes_of in H.
Qed.

Lemma latest_verification_None db pid :
  latest_verification db pid = None ↔
  ∀ k v, email_verifications db !! k = Some v →
         EmailVerification.pending_user_id v ≠ Some pid.
Proof.
  unfold latest_verification. rewrite first_created_at_desc_None.
  rewrite <-head_None. change (head ?l) with (first l).
  rewrite first_filter_by_None.
  by setoid_rewrite for_pending_false.
Qed.

Lemma create_verification_code_table db pid e :
  email_verifications (create_verification_code db pid e).2 =
  <[issued_id db pid := new_verification pid e]>
    (delete_where (for_pending pid) (email_verifications db)).
Proof. reflexivity. Qed.

Lemma create_verification_code_codes db pid e :
  codes_of (create_verification_code db pid e).2 pid =
  [(issued_id db pid, new_verification pid e)].
Proof.
  unfold codes_of. apply filter_by_singleton. intros k v.
  rewrite create_verification_code_table, for_pending_true.
  unfold issued_id. set (t := delete_where _ _).
  change (<[next_id t := ?x]> t) with (add_row x t).
  rewrite lookup_add_row. split.
  - intros [[[-> ->]|Hk] HP]; [done|].
    apply lookup_delete_where in Hk as [_ Hk].
    by apply for_pending_false in Hk.
  - intros [-> ->]. split; [by left|done].
Qed.

(** [order_by(created_at.desc()).first()] picks the greatest row of a strict
    total order, whatever the order in which the table is scanned. *)

Lemma before_desc_irrefl a : before_desc a a = false.
Proof.
  unfold before_desc. repeat case_bool_decide; simpl; try done; lia.
Qed.

Lemma before_desc_trans a b c :
  before_desc a b = true → before_desc b c = true → before_desc a c = true.
Proof.
  unfold before_desc. repeat case_bool_decide; simpl; try done; lia.
Qed.

Lemma before_desc_total a b :
  a.1 ≠ b.1 → before_desc a b = true ∨ before_desc b a = true.
Proof.
  unfold before_desc. repeat case_bool_decide; simpl; auto; lia.
Qed.

Lemma first_created_at_desc_max rows r :
  first_created_at_desc rows = Some r →
  ∀ r', r' ∈ rows → before_desc r' r = false.
Proof.
  revert r. induction rows as [|x rows IH]; intros r; simpl; [done|].
  destruct (first_created_at_desc rows) as [b|] eqn:E.
  - destruct (before_desc x b) eqn:Hxb; intros [= <-] r' Hin.
    + apply elem_of_cons in Hin as [->|Hin]; [apply before_desc_irrefl|].
      destruct (before_desc r' x) eqn:Hr'; [|done].
      rewrite <-(IH b eq_refl r' Hin). symmetry.
      by apply (before_desc_trans r' x b).
    + apply elem_of_cons in Hin as [->|Hin]; [done|by apply IH].
  - apply first_created_at_desc_None in E as ->.
    intros [= <-] r' Hin. apply list_elem_of_singleton in Hin as ->.
    apply before_desc_irrefl.
Qed.

Lemma latest_verification_iff db pid vid v :
  latest_verification db pid = Some (vid, v) ↔
  (vid, v) ∈ codes_of db pid
  ∧ ∀ r', r' ∈ codes_of db pid → before_desc r' (vid, v) = false.
Proof.
  split.
  - intros H. split; [by apply first_created_at_desc_elem|].
    by apply first_created_at_desc_max.
  - intros [Hin Hmax]. unfold latest_verification. fold (codes_of db pid).
    destruct (first_created_at_desc (codes_of db pid)) as [[k w]|] eqn:E.
    + pose proof (first_created_at_desc_elem _ _ E) as Hin'.
      pose proof (first_created_at_desc_max _ _ E _ Hin) as H1.
      pose proof (Hmax _ Hin') as H2.
      destruct (decide (k = vid)) as [->|Hne].
      * apply elem_of_codes_of in Hin as [Hin _].
        apply elem_of_codes_of in Hin' as [Hin' _]. congruence.
      * destruct (before_desc_total (k, w) (vid, v)); [done|congruence..].
    + apply first_created_at_desc_None in E. rewrite E in Hin.
      by apply elem_of_nil in Hin.
Qed.

(** A lone code is the latest one. *)
Lemma latest_verification_create db pid e :
  latest_verification (create_verification_code db pid e).2 pid =
  Some (issued_id db pid, new_verification pid e).
Proof.
  unfold latest_verification. fold (codes_of (create_verification_code db pid e).2 pid).
  by rewrite create_verification_code_codes.
Qed.

(** Counting a failed attempt keeps the row the latest one. *)
Lemma latest_verification_set_attempts db pid vid v n :
  latest_verification db pid = Some (vid, v) →
  latest_verification
    (with_email_verifications
       (<[vid := EmailVerification.set_attempts n v]>) db) pid =
  Some (vid, EmailVerification.set_attempts n v).
Proof.
  intros H. apply latest_verification_iff in H as [Hin Hmax].
  apply elem_of_codes_of in Hin as [Hvid Hpid].
  apply latest_verification_iff. split.
  - apply elem_of_codes_of. simpl. by rewrite lookup_insert_eq.
  - intros [k w] Hkw. apply elem_of_codes_of in Hkw as [Hk Hw]. simpl in Hk.
    destruct (decide (vid = k)) as [<-|Hne].
    + rewrite lookup_insert_eq in Hk. injection Hk as <-.
      apply before_desc_irrefl.
    + rewrite lookup_insert_ne in Hk by done.
      assert ((k, w) ∈ codes_of db pid) as Hin by by apply elem_of_codes_of.
      apply Hmax in Hin. by destruct v.
Qed.

(** ** Issuing a code *)

Lemma create_verification_code_others db pid e k v :
  EmailVerification.pending_user_id v ≠ Some pid →
  email_verifications (create_verification_code db pid e).2 !! k = Some v ↔
  email_verifications db !! k = Some v.
Proof.
  intros Hv. rewrite create_verification_code_table. unfold issued_id.
  set (t := delete_where _ _).
  change (<[next_id t := ?x]> t) with (add_row x t).
  rewrite lookup_add_row. unfold t. rewrite lookup_delete_where, for_pending_false.
  split.
  - intros [[_ ->]|[? _]]; [by destruct Hv|done].
  - intros ?. by right.
Qed.

(** C4: for every pending registration id and every store state, after
    [create_verification_code] exactly one [email_verifications] row exists
    for that id, namely the code just issued: the rows the id had before are
    deleted first.  Calling it twice therefore leaves one row, the second
    code.  Rows of other registrations and the other tables are untouched. *)
Theorem create_verification_code_exactly_one db pid e :
  let db' := (create_verification_code db pid e).2 in
  codes_of db' pid = [(issued_id db pid, new_verification pid e)]
  ∧ length (codes_of db' pid) = 1%nat
  ∧ (create_verification_code db pid e).1
    = EmailVerification.code (new_verification pid e)
  ∧ (∀ e2, codes_of (create_verification_code db' pid e2).2 pid
           = [(issued_id db' pid, new_verification pid e2)])
  ∧ (∀ k v, EmailVerification.pending_user_id v ≠ Some pid →
            email_verifications db' !! k = Some v ↔
            email_verifications db !! k = Some v)
  ∧ users db' = users db
  ∧ pending_users db' = pending_users db.
Proof.
  intros db'. unfold db'. rewrite !create_verification_code_codes.
  repeat split; try done.
  - intros e2. apply create_verification_code_codes.
  - by apply create_verification_code_others.
  - by apply create_verification_code_others.
Qed.

(** ** Checking a code *)

Lemma user_by_email_Some db e :
  is_Some (user_by_email db e) ↔ ∃ k u, users db !! k = Some u ∧ User.email u = e.
Proof.
  unfold user_by_email. rewrite first_filter_by_Some.
  by setoid_rewrite bool_decide_eq_true.
Qed.

Lemma user_by_username_Some db n :
  is_Some (user_by_username db n) ↔
  ∃ k u, users db !! k = Some u ∧ User.username u = n.
Proof.
  unfold user_by_username. rewrite first_filter_by_Some.
  by setoid_rewrite bool_decide_eq_true.
Qed.

Lemma user_by_assigned_id_Some db a :
  is_Some (user_by_assigned_id db a) ↔
  ∃ k u, users db !! k = Some u ∧ User.assigned_id u = a.
Proof.
  unfold user_by_assigned_id. rewrite first_filter_by_Some.
  by setoid_rewrite bool_decide_eq_true.
Qed.

Lemma conflict_check_true db pending :
  bool_decide (is_Some (user_by_email db (PendingUser.email pending)))
  || bool_decide (is_Some (user_by_username db (PendingUser.username pending)))
  = true ↔ account_conflict db pending.
Proof.
  rewrite orb_true_iff, !bool_decide_eq_true.
  rewrite user_by_email_Some, user_by_username_Some.
  unfold account_conflict. split.
  - intros [(k & u & ? & ?)|(k & u & ? & ?)]; exists k, u; auto.
  - intros (k & u & ? & [?|?]); [left|right]; eauto.
Qed.

Lemma conflict_check_false db pending :
  bool_decide (is_Some (user_by_email db (PendingUser.email pending)))
  || bool_decide (is_Some (user_by_username db (PendingUser.username pending)))
  = false ↔ ¬ account_conflict db pending.
Proof. rewrite <-conflict_check_true. by destruct (_ || _). Qed.

Lemma violates_unique_to_user db pending :
  violates_unique db (PendingUser.to_user pending) = true ↔
  assigned_id_conflict db pending ∨ account_conflict db pending.
Proof.
  unfold violates_unique. simpl.
  rewrite !orb_true_iff, !bool_decide_eq_true.
  rewrite user_by_email_Some, user_by_username_Some, user_by_assigned_id_Some.
  unfold assigned_id_conflict, account_conflict. split.
  - intros [[(k & u & ? & ?)|(k & u & ? & ?)]|(k & u & ? & ?)];
      [left|right..]; exists k, u; auto.
  - intros [(k & u & ? & ?)|(k & u & ? & [?|?])];
      [left; left|right|left; right]; eauto.
Qed.

Section Verify.
Context (db : Db) (pending_id : Z) (pending : PendingUser.t).
Context (vid : Z) (verification : EmailVerification.t).
Context (code : string) (now created : datetime).
Hypothesis Hpending : pending_users db !! pending_id = Some pending.
Hypothesis Hlatest :
  latest_verification db pending_id = Some (vid, verification).

Local Ltac enter :=
  unfold verify_pending_user, EmailVerification.is_expired;
  rewrite Hpending, Hlatest.

Lemma verify_expired :
  now > EmailVerification.expires_at verification →
  verify_pending_user db pending_id code now created =
  (Return (None, "Verification code expired"%string), db).
Proof. intros. enter. by rewrite bool_decide_eq_true_2. Qed.

Lemma verify_too_many_attempts :
  now ≤ EmailVerification.expires_at verification →
  5 ≤ EmailVerification.attempts verification →
  verify_pending_user db pending_id code now created =
  (Return (None, "Too many attempts"%string), db).
Proof.
  intros. enter. rewrite bool_decide_eq_false_2 by lia.
  by rewrite bool_decide_eq_true_2 by lia.
Qed.

Lemma verify_invalid_code :
  now ≤ EmailVerification.expires_at verification →
  EmailVerification.attempts verification < 5 →
  EmailVerification.code verification ≠ code →
  verify_pending_user db pending_id code now created =
  (Return (None, "Invalid verification code"%string),
   with_email_verifications
     (<[vid := EmailVerification.set_attempts
                 (EmailVerification.attempts verification + 1)
                 verification]>) db).
Proof.
  intros. enter. rewrite !bool_decide_eq_false_2 by lia.
  by rewrite bool_decide_eq_true_2.
Qed.

Lemma verify_already_exists :
  now ≤ EmailVerification.expires_at verification →
  EmailVerification.attempts verification < 5 →
  EmailVerification.code verification = code →
  account_conflict db pending →
  verify_pending_user db pending_id code now created =
  (Return (None, "User already exists"%string),
   with_pending_users
     (<[pending_id := PendingUser.set_status "expired" pending]>)
     (with_email_verifications (delete vid) db)).
Proof.
  intros ??? Hc. enter. rewrite !bool_decide_eq_false_2 by (lia || tauto).
  apply conflict_check_true in Hc. by rewrite Hc.
Qed.

Lemma verify_integrity_error :
  now ≤ EmailVerification.expires_at verification →
  EmailVerification.attempts verification < 5 →
  EmailVerification.code verification = code →
  ¬ account_conflict db pending →
  assigned_id_conflict db pending →
  verify_pending_user db pending_id code now created =
  (Raise IntegrityError, db).
Proof.
  intros ??? Hc Ha. enter. rewrite !bool_decide_eq_false_2 by (lia || tauto).
  apply conflict_check_false in Hc. rewrite Hc.
  assert (violates_unique db (PendingUser.to_user pending) = true) as ->; [|done].
  apply violates_unique_to_user. by left.
Qed.

Lemma verify_success :
  now ≤ EmailVerification.expires_at verification →
  EmailVerification.attempts verification < 5 →
  EmailVerification.code verification = code →
  ¬ account_conflict db pending →
  ¬ assigned_id_conflict db pending →
  verify_pending_user db pending_id code now created =
  (Return (Some (next_id (users db),
                 stored_user created (PendingUser.to_user pending)),
           "Success"%string),
   delete_pending pending_id
     (with_email_verifications (delete vid)
        (with_users
           (add_row (stored_user created (PendingUser.to_user pending)))
           db))).
Proof.
  intros ??? Hc Ha. enter. rewrite !bool_decide_eq_false_2 by (lia || tauto).
  rewrite (proj2 (conflict_check_false _ _) Hc).
  destruct (violates_unique db (PendingUser.to_user pending)) eqn:E; [|done].
  apply violates_unique_to_user in E. tauto.
Qed.
End Verify.

Lemma codes_of_nil db pid :
  codes_of db pid = [] ↔
  ∀ k v, email_verifications db !! k = Some v →
         EmailVerification.pending_user_id v ≠ Some pid.
Proof.
  unfold codes_of. rewrite <-head_None. change (head ?l) with (first l).
  rewrite first_filter_by_None. by setoid_rewrite for_pending_false.
Qed.

Lemma codes_of_delete_pending db pid : codes_of (delete_pending pid db) pid = [].
Proof.
  apply codes_of_nil. intros k v Hk. simpl in Hk.
  apply lookup_delete_where in Hk as [_ Hk]. by apply for_pending_false.
Qed.

(** C1: for an existing PendingRegistration with a live matching code
    (attempts < 5, not expired) and no Account holding its e-mail or
    username, a successful [verify_pending_user] returns "Success" with the
    Account built from the registration's stored fields and
    [is_verified = true]; afterwards no [pending_users] row and no
    [email_verifications] row remains for that id, and [users] holds exactly
    one row more, that Account.  The call does succeed whenever the
    registration's [assigned_id], which [generate_assigned_id] chose to be
    unused, is still unused among the accounts. *)
Theorem verify_pending_user_promotes
    db pid pending vid v code now created :
  pending_users db !! pid = Some pending →
  latest_verification db pid = Some (vid, v) →
  EmailVerification.attempts v < 5 →
  now ≤ EmailVerification.expires_at v →
  EmailVerification.code v = code →
  ¬ account_conflict db pending →
  let uid := next_id (users db) in
  let user := stored_user created (PendingUser.to_user pending) in
  (∀ r msg db',
     verify_pending_user db pid code now created = (Return (Some r, msg), db') →
     r = (uid, user) ∧ msg = "Success"%string
     ∧ pending_users db' !! pid = None
     ∧ pending_users db' = delete pid (pending_users db)
     ∧ codes_of db' pid = []
     ∧ (∀ k w, EmailVerification.pending_user_id w ≠ Some pid →
               email_verifications db' !! k = Some w ↔
               email_verifications db !! k = Some w)
     ∧ users db !! uid = None
     ∧ users db' = <[uid := user]> (users db)
     ∧ size (users db') = S (size (users db)))
  ∧ (¬ assigned_id_conflict db pending →
     ∃ db', verify_pending_user db pid code now created
            = (Return (Some (uid, user), "Success"%string), db'))
  ∧ User.is_verified user = true
  ∧ User.assigned_id user = PendingUser.assigned_id pending
  ∧ User.username user = PendingUser.username pending
  ∧ User.email user = PendingUser.email pending
  ∧ User.password_hash user = PendingUser.password_hash pending
  ∧ User.name user = PendingUser.name pending
  ∧ User.gender user = PendingUser.gender pending
  ∧ User.avatar user = PendingUser.avatar pending.
Proof.
  intros Hp Hl Ha Hn Hc Hnc uid user. split; [|split; [|done]].
  - intros r msg db' Hv.
    destruct (violates_unique db (PendingUser.to_user pending)) eqn:E.
    + apply violates_unique_to_user in E as [E|E]; [|done].
      by rewrite (verify_integrity_error db pid pending vid v code now created)
        in Hv.
    + assert (¬ assigned_id_conflict db pending) as Hna.
      { intros Hx. assert (violates_unique db (PendingUser.to_user pending) = true)
          as Hy by (apply violates_unique_to_user; by left). congruence. }
      rewrite (verify_success db pid pending vid v code now created) in Hv
        by done.
      injection Hv as <- <- <-. fold uid user.
      apply latest_verification_Some in Hl as [Hvid Hpid].
      repeat split; try done.
      * simpl. apply lookup_delete_eq.
      * apply codes_of_delete_pending.
      * simpl. rewrite lookup_delete_where. intros [Hk _].
        by apply lookup_delete_Some in Hk as [_ Hk].
      * intros Hk. simpl. apply lookup_delete_where.
        split; [|by apply for_pending_false].
        apply lookup_delete_Some. split; [|done]. intros <-. congruence.
      * apply next_id_fresh.
      * simpl. apply size_add_row.
  - intros Hna. eexists. by apply (verify_success db pid pending vid v).
Qed.

(** C8: for an existing PendingRegistration with a live matching code, when
    an Account already holds its username or its e-mail,
    [verify_pending_user] returns "User already exists", deletes the code's
    row, sets the registration's status to 'expired' and leaves the
    registration row (all other columns, and every other registration) and
    the [users] table as they were. *)
Theorem verify_pending_user_already_exists
    db pid pending vid v code now created :
  pending_users db !! pid = Some pending →
  latest_verification db pid = Some (vid, v) →
  EmailVerification.attempts v < 5 →
  now ≤ EmailVerification.expires_at v →
  EmailVerification.code v = code →
  account_conflict db pending →
  ∃ db' pending',
    verify_pending_user db pid code now created
    = (Return (None, "User already exists"%string), db')
    ∧ email_verifications db' !! vid = None
    ∧ email_verifications db' = delete vid (email_verifications db)
    ∧ pending_users db' !! pid = Some pending'
    ∧ PendingUser.status pending' = "expired"%string
    ∧ PendingUser.set_status (PendingUser.status pending) pending' = pending
    ∧ (∀ k, k ≠ pid → pending_users db' !! k = pending_users db !! k)
    ∧ users db' = users db.
Proof.
  intros Hp Hl Ha Hn Hc Hx.
  eexists _, (PendingUser.set_status "expired" pending). split.
  { by apply (verify_already_exists db pid pending vid v). }
  simpl. repeat split.
  - apply lookup_delete_eq.
  - apply lookup_insert_eq.
  - by destruct pending.
  - intros k Hk. by rewrite lookup_insert_ne.
Qed.

Lemma set_attempts_set_attempts n m v :
  EmailVerification.set_attempts n (EmailVerification.set_attempts m v)
  = EmailVerification.set_attempts n v.
Proof. reflexivity. Qed.

Lemma wrong_submissions db pid pending vid v subs :
  pending_users db !! pid = Some pending →
  latest_verification db pid = Some (vid, v) →
  EmailVerification.attempts v + Z.of_nat (length subs) ≤ 5 →
  Forall (λ s : string * datetime * datetime,
            s.1.1 ≠ EmailVerification.code v
            ∧ s.1.2 ≤ EmailVerification.expires_at v) subs →
  pending_users (submit_codes db pid subs) !! pid = Some pending
  ∧ latest_verification (submit_codes db pid subs) pid
    = Some (vid, EmailVerification.set_attempts
                   (EmailVerification.attempts v + Z.of_nat (length subs)) v).
Proof.
  revert db v. induction subs as [|[[code now] created] subs IH];
    intros db v Hp Hl Hlen Hall.
  - simpl. rewrite Z.add_0_r. split; [done|]. by destruct v.
  - apply Forall_cons in Hall as [[Hcode Hnow] Hall]. simpl in Hcode, Hnow.
    simpl length in *. simpl submit_codes.
    rewrite (verify_invalid_code db pid pending vid v) by (done || lia).
    simpl snd.
    edestruct (IH (with_email_verifications
                     (<[vid := EmailVerification.set_attempts
                                 (EmailVerification.attempts v + 1) v]>) db)
                  (EmailVerification.set_attempts
                     (EmailVerification.attempts v + 1) v)) as [IH1 IH2].
    + done.
    + by apply latest_verification_set_attempts.
    + simpl. lia.
    + done.
    + split; [done|]. rewrite IH2. simpl. rewrite set_attempts_set_attempts.
      do 3 f_equal. lia.
Qed.

(** C3: for an existing PendingRegistration whose current, non-expired code
    has [attempts >= 5], every submission, the correct code included, fails
    with "Too many attempts" and leaves the store as it was (nothing is
    incremented or deleted); while [attempts < 5] a wrong submission fails
    with "Invalid verification code" and raises the [attempts] of that code
    by exactly 1, changing nothing else.  Hence after five wrong submissions
    against a fresh code the sixth fails with "Too many attempts" whatever
    it submits. *)
Theorem verify_pending_user_attempt_limit db pid pending vid v now created :
  pending_users db !! pid = Some pending →
  latest_verification db pid = Some (vid, v) →
  now ≤ EmailVerification.expires_at v →
  (5 ≤ EmailVerification.attempts v →
   ∀ code, verify_pending_user db pid code now created
           = (Return (None, "Too many attempts"%string), db))
  ∧ (EmailVerification.attempts v < 5 →
     ∀ code, code ≠ EmailVerification.code v →
     ∃ db' v',
       verify_pending_user db pid code now created
       = (Return (None, "Invalid verification code"%string), db')
       ∧ latest_verification db' pid = Some (vid, v')
       ∧ EmailVerification.attempts v' = EmailVerification.attempts v + 1
       ∧ EmailVerification.set_attempts (EmailVerification.attempts v) v' = v
       ∧ email_verifications db' = <[vid := v']> (email_verifications db)
       ∧ pending_users db' = pending_users db
       ∧ users db' = users db)
  ∧ (EmailVerification.attempts v = 0 →
     ∀ subs code6 now6 created6,
       length subs = 5%nat →
       Forall (λ s : string * datetime * datetime,
                 s.1.1 ≠ EmailVerification.code v
                 ∧ s.1.2 ≤ EmailVerification.expires_at v) subs →
       now6 ≤ EmailVerification.expires_at v →
       verify_pending_user (submit_codes db pid subs) pid code6 now6 created6
       = (Return (None, "Too many attempts"%string),
          submit_codes db pid subs)).
Proof.
  intros Hp Hl Hn. repeat split.
  - intros Ha code. by apply (verify_too_many_attempts db pid pending vid v).
  - intros Ha code Hc.
    eexists _, (EmailVerification.set_attempts
                  (EmailVerification.attempts v + 1) v).
    split; [by apply (verify_invalid_code db pid pending vid v)|].
    repeat split.
    + by apply latest_verification_set_attempts.
    + by destruct v.
  - intros Ha subs code6 now6 created6 Hlen Hall Hn6.
    destruct (wrong_submissions db pid pending vid v subs) as [Hp' Hl'];
      try done; [rewrite Ha, Hlen; lia|].
    apply (verify_too_many_attempts _ pid pending vid _ _ _ _ Hp' Hl').
    + done.
    + simpl. rewrite Ha, Hlen. lia.
Qed.

Lemma verify_no_code db pid pending code now created :
  pending_users db !! pid = Some pending →
  latest_verification db pid = None →
  verify_pending_user db pid code now created
  = (Return (None, "Verification code expired"%string), db).
Proof. intros Hp Hl. unfold verify_pending_user. by rewrite Hp, Hl. Qed.

(** The outcome of a call on an existing registration, by cases. *)
Lemma verify_pending_user_cases db pid pending code now created :
  pending_users db !! pid = Some pending →
  let r := (verify_pending_user db pid code now created).1 in
  (r = Return (None, "Verification code expired"%string)
   ∧ (latest_verification db pid = None
      ∨ ∃ vid v, latest_verification db pid = Some (vid, v)
                 ∧ now > EmailVerification.expires_at v))
  ∨ (∃ vid v, latest_verification db pid = Some (vid, v)
              ∧ now ≤ EmailVerification.expires_at v
              ∧ ((r = Return (None, "Too many attempts"%string)
                  ∧ 5 ≤ EmailVerification.attempts v)
                 ∨ (r = Return (None, "Invalid verification code"%string)
                    ∧ EmailVerification.attempts v < 5
                    ∧ EmailVerification.code v ≠ code)
                 ∨ (code_accepted r = true
                    ∧ (is_success r = true ↔
                       ¬ account_conflict db pending
                       ∧ ¬ assigned_id_conflict db pending)
                    ∧ EmailVerification.attempts v < 5
                    ∧ EmailVerification.code v = code))).
Proof.
  intros Hp r. unfold r.
  destruct (latest_verification db pid) as [[vid v]|] eqn:Hl.
  2:{ left. rewrite (verify_no_code db pid pending) by done. auto. }
  destruct (decide (now ≤ EmailVerification.expires_at v)) as [Hn|Hn].
  2:{ left. rewrite (verify_expired db pid pending vid v) by (done || lia).
      split; [done|]. right. exists vid, v. split; [done|lia]. }
  right. exists vid, v. do 2 (split; [done|]).
  destruct (decide (5 ≤ EmailVerification.attempts v)) as [Ha|Ha].
  { left. by rewrite (verify_too_many_attempts db pid pending vid v). }
  right. assert (EmailVerification.attempts v < 5) as Ha' by lia.
  destruct (decide (EmailVerification.code v = code)) as [Hc|Hc].
  2:{ left. by rewrite (verify_invalid_code db pid pending vid v). }
  right.
  destruct (bool_decide (is_Some (user_by_email db (PendingUser.email pending)))
            || bool_decide (is_Some (user_by_username db (PendingUser.username pending))))
    eqn:Hx.
  { apply conflict_check_true in Hx.
    rewrite (verify_already_exists db pid pending vid v) by done.
    repeat split; try done. tauto. }
  apply conflict_check_false in Hx.
  destruct (violates_unique db (PendingUser.to_user pending)) eqn:Hu.
  { apply violates_unique_to_user in Hu as [Hu|Hu]; [|done].
    rewrite (verify_integrity_error db pid pending vid v) by done.
    repeat split; try done. tauto. }
  assert (¬ assigned_id_conflict db pending) as Hna.
  { intros Hy. assert (violates_unique db (PendingUser.to_user pending) = true)
      as Hz by (apply violates_unique_to_user; by left). congruence. }
  rewrite (verify_success db pid pending vid v) by done.
  repeat split; done.
Qed.

(** C2: for an existing PendingRegistration, [verify_pending_user] accepts
    the submitted code if and only if it equals the stored code (string
    equality), the code's [attempts] is below 5 and [now <= expires_at];
    when no account holds the registration's identity, accepting is
    returning "Success".  A code issued at time T ([expires_at] = T + 10
    minutes) and checked at T + 11 minutes, or at any time after T + 10
    minutes, is rejected with "Verification code expired" whatever is
    submitted, and nothing is changed. *)
Theorem verify_pending_user_accepts_iff db pid pending code now created :
  pending_users db !! pid = Some pending →
  let live_match :=
    ∃ vid v, latest_verification db pid = Some (vid, v)
             ∧ EmailVerification.code v = code
             ∧ EmailVerification.attempts v < 5
             ∧ now ≤ EmailVerification.expires_at v in
  (code_accepted (verify_pending_user db pid code now created).1 = true
   ↔ live_match)
  ∧ (¬ account_conflict db pending → ¬ assigned_id_conflict db pending →
     is_success (verify_pending_user db pid code now created).1 = true
     ↔ live_match)
  ∧ (∀ e code' now' created',
       ie_now e + minutes 10 < now' →
       verify_pending_user (create_verification_code db pid e).2 pid
                           code' now' created'
       = (Return (None, "Verification code expired"%string),
          (create_verification_code db pid e).2))
  ∧ (∀ e code' created',
       verify_pending_user (create_verification_code db pid e).2 pid
                           code' (ie_now e + minutes 11) created'
       = (Return (None, "Verification code expired"%string),
          (create_verification_code db pid e).2)).
Proof.
  intros Hp live_match.
  pose proof (verify_pending_user_cases db pid pending code now created Hp)
    as Hcases. simpl in Hcases.
  assert (∀ e code' now' created',
            ie_now e + minutes 10 < now' →
            verify_pending_user (create_verification_code db pid e).2 pid
                                code' now' created'
            = (Return (None, "Verification code expired"%string),
               (create_verification_code db pid e).2)) as Hexp.
  { intros e code' now' created' Hlate.
    apply (verify_expired _ pid pending (issued_id db pid)
                          (new_verification pid e)).
    - done.
    - apply latest_verification_create.
    - simpl. lia. }
  split; [|split; [|split]].
  - split.
    + intros Hacc.
      destruct Hcases as [[Hr _]|(vid & v & Hl & Hn & Hcases)].
      { rewrite Hr in Hacc. discriminate. }
      destruct Hcases as [[Hr _]|[[Hr _]|(_ & _ & Ha & Hc)]].
      * rewrite Hr in Hacc. discriminate.
      * rewrite Hr in Hacc. discriminate.
      * by exists vid, v.
    + intros (vid & v & Hl & Hc & Ha & Hn).
      destruct Hcases as [[_ [Hl'|(? & ? & Hl' & ?)]]|(? & ? & Hl' & Hn' & Hcases)].
      * congruence.
      * rewrite Hl in Hl'. simplify_eq. lia.
      * rewrite Hl in Hl'. simplify_eq.
        destruct Hcases as [[_ ?]|[(_ & _ & ?)|(? & _)]]; [lia|done..].
  - intros Hnc Hna. split.
    + intros Hs.
      destruct Hcases as [[Hr _]|(vid & v & Hl & Hn & Hcases)].
      { rewrite Hr in Hs. discriminate. }
      destruct Hcases as [[Hr _]|[[Hr _]|(_ & _ & Ha & Hc)]].
      * rewrite Hr in Hs. discriminate.
      * rewrite Hr in Hs. discriminate.
      * by exists vid, v.
    + intros (vid & v & Hl & Hc & Ha & Hn).
      by rewrite (verify_success db pid pending vid v).
  - exact Hexp.
  - intros e code' created'. apply Hexp. unfold minutes. lia.
Qed.

(** ** Resending a code *)

Section Resend.
Context (app : App) (session : gmap string Z) (e : resend_env).
Context (pid : Z) (pending : PendingUser.t).
Hypothesis Hsession : session !! "pending_id"%string = Some pid.
Hypothesis Hpending : pending_users (db app) !! pid = Some pending.

Lemma resend_code_limited :
  rate_limited (recent_resends app) (user_key pid) (re_current_time e) = true →
  resend_code app session e =
  (mkResponse ("Too many resend attempts. Please wait before trying again.",
               "danger")%string "auth.verify_code" None,
   app, session).
Proof. intros H. unfold resend_code. by rewrite Hsession, Hpending, H. Qed.

Lemma resend_code_issued :
  rate_limited (recent_resends app) (user_key pid) (re_current_time e) = false →
  resend_code app session e =
  (mkResponse
     (if re_mail_ok e
      then ("New verification code sent", "success")%string
      else ("Failed to send verification email. Please check your email settings.",
            "danger")%string)
     "auth.verify_code"
     (Some (PendingUser.email pending, PendingUser.username pending,
            format_06d (ie_rand (re_issue e)))),
   mkApp (create_verification_code (db app) pid (re_issue e)).2
         (note_resend (recent_resends app) (user_key pid) (re_current_time e)),
   session).
Proof. intros H. unfold resend_code. by rewrite Hsession, Hpending, H. Qed.
End Resend.

Lemma rate_limited_true rr key now :
  rate_limited rr key now = true ↔
  ∃ last_resend count, rr !! key = Some (last_resend, count)
                       ∧ now - last_resend < hours 1 ∧ 3 ≤ count.
Proof.
  unfold rate_limited, total_seconds_lt, hours.
  destruct (rr !! key) as [[l c]|].
  - rewrite andb_true_iff, !bool_decide_eq_true. split.
    + intros [??]. exists l, c. split; [done|lia].
    + intros (? & ? & [= <- <-] & ? & ?). lia.
  - split; [done|]. by intros (? & ? & ? & _).
Qed.

(** C6: for an existing PendingRegistration whose throttle entry records a
    last resend under one hour ago and a count of at least 3, [resend_code]
    answers "Too many resend attempts", sends and issues no code, and leaves
    the database (the stored code's row included), the throttle entry
    (timestamp and count) and the session exactly as they were. *)
Theorem resend_code_too_many_resends
    app session e pid pending last_resend count :
  session !! "pending_id"%string = Some pid →
  pending_users (db app) !! pid = Some pending →
  recent_resends app !! user_key pid = Some (last_resend, count) →
  re_current_time e - last_resend < hours 1 →
  3 ≤ count →
  ∃ resp app' session',
    resend_code app session e = (resp, app', session')
    ∧ flashed resp
      = ("Too many resend attempts. Please wait before trying again.",
         "danger")%string
    ∧ location resp = "auth.verify_code"%string
    ∧ mailed resp = None
    ∧ app' = app
    ∧ session' = session
    ∧ codes_of (db app') pid = codes_of (db app) pid
    ∧ email_verifications (db app') = email_verifications (db app)
    ∧ recent_resends app' !! user_key pid = Some (last_resend, count).
Proof.
  intros Hs Hp Hr Ht Hc. eexists _, _, _. split.
  - apply (resend_code_limited app session e pid pending Hs Hp).
    apply rate_limited_true. eauto.
  - by repeat split.
Qed.

(** C9, as the code has it: [create_verification_code] does not look the
    PendingRegistration up.  For every id, also one that refers to no
    registration, it returns a code and persists exactly one row for that
    id.  The check for a missing registration is made by the callers:
    [resend_code] with a session id that refers to no registration answers
    "Invalid session. Please sign up again.", drops the id from the session,
    and issues and persists nothing; [verify_pending_user] returns "Invalid
    session" and changes nothing. *)
Theorem create_verification_code_unchecked db pid e :
  pending_users db !! pid = None →
  (∃ db', create_verification_code db pid e = (format_06d (ie_rand e), db')
          ∧ codes_of db' pid = [(issued_id db pid, new_verification pid e)]
          ∧ pending_users db' !! pid = None)
  ∧ (∀ rr session re,
       session !! "pending_id"%string = Some pid →
       resend_code (mkApp db rr) session re
       = (mkResponse ("Invalid session. Please sign up again.", "danger")%string
                     "auth.signup" None,
          mkApp db rr, delete "pending_id"%string session))
  ∧ (∀ code now created,
       verify_pending_user db pid code now created
       = (Return (None, "Invalid session"%string), db)).
Proof.
  intros Hp. repeat split.
  - eexists. split; [reflexivity|]. split; [|done].
    apply create_verification_code_codes.
  - intros rr session re Hs. unfold resend_code. simpl. by rewrite Hs, Hp.
  - intros code now created. unfold verify_pending_user. by rewrite Hp.
Qed.

(** ** Signup *)

Lemma create_pending_user_Return db username email name gender e pid pending db1 :
  create_pending_user db username email name gender e
  = (Return (pid, pending), db1) →
  pid = next_id (pending_users db)
  ∧ db1 = with_pending_users (add_row pending) db
  ∧ PendingUser.username pending = username
  ∧ PendingUser.email pending = email
  ∧ PendingUser.status pending = "pending"%string.
Proof.
  unfold create_pending_user.
  destruct (generate_assigned_id db username 3 30 (se_rand_id e)); [|done].
  by intros [= <- <- <-].
Qed.

(** The [assigned_id] of a new registration is held by no account: this is
    what lets its later promotion pass the UNIQUE constraint of [users]. *)
Lemma generate_assigned_id_from_free db prefix rand i tries candidate :
  generate_assigned_id_from db prefix rand i tries = Return candidate →
  assigned_id_taken db candidate = false.
Proof.
  revert i. induction tries as [|tries IH]; intros i; simpl; [done|].
  destruct (assigned_id_taken db (prefix +:+ format_04d (rand i))) eqn:E.
  - apply IH.
  - by intros [= <-].
Qed.


Lemma delete_pending_created db pending e :
  let pid := next_id (pending_users db) in
  let db1 := with_pending_users (add_row pending) db in
  let db' := delete_pending pid (create_verification_code db1 pid e).2 in
  pending_users db' = pending_users db
  ∧ users db' = users db
  ∧ codes_of db' pid = []
  ∧ (∀ k w, EmailVerification.pending_user_id w ≠ Some pid →
            email_verifications db' !! k = Some w ↔
            email_verifications db !! k = Some w).
Proof.
  intros pid db1 db'. repeat split.
  - simpl. unfold add_row. apply delete_insert_id, next_id_fresh.
  - apply codes_of_delete_pending.
  - simpl. rewrite lookup_delete_where. intros [Hk _].
    by apply (create_verification_code_others db1 pid e).
  - intros Hk. simpl. apply lookup_delete_where.
    split; [|by apply for_pending_false].
    by apply (create_verification_code_others db1 pid e).
Qed.

(** C7: in every signup whose verification e-mail is dispatched and
    reported as failed ([send_verification_email] returns False), the
    PendingRegistration just created and the code just created for it are
    both deleted: the [pending_users] table is what it was before the
    signup, no [email_verifications] row is left for the new id, the
    accounts, the codes of other registrations and the session are
    untouched, and the user is sent back to the signup page. *)
Theorem signup_mail_failure db session form e resp db' session' mail :
  se_mail_ok e = false →
  signup db session form e = (resp, db', session') →
  mailed resp = Some mail →
  let pid := next_id (pending_users db) in
  (∃ pending,
     create_pending_user db (strip (f_username form))
       (lower (strip (f_email form)))
       (strip (default ""%string (f_name form)))
       (default "other"%string (f_gender form)) e
     = (Return (pid, pending), with_pending_users (add_row pending) db)
     ∧ mail = (PendingUser.email pending, PendingUser.username pending,
               format_06d (ie_rand (se_issue e))))
  ∧ pending_users db' !! pid = None
  ∧ pending_users db' = pending_users db
  ∧ codes_of db' pid = []
  ∧ (∀ k w, EmailVerification.pending_user_id w ≠ Some pid →
            email_verifications db' !! k = Some w ↔
            email_verifications db !! k = Some w)
  ∧ users db' = users db
  ∧ session' = session
  ∧ flashed resp
    = ("Failed to send verification email. Please check your email settings.",
       "danger")%string
  ∧ location resp = "auth.signup"%string.
Proof.
  intros Hok Hs Hm pid. unfold signup in Hs. rewrite Hok in Hs.
  repeat (match type of Hs with
          | (if ?b then _ else _) = _ =>
              destruct b; [injection Hs as <- <- <-; discriminate Hm|]
          end).
  destruct (create_pending_user _ _ _ _ _ _) as [[[pid' pending]|ex] db1] eqn:Hc.
  2:{ injection Hs as <- <- <-. discriminate Hm. }
  apply create_pending_user_Return in Hc as Hc'.
  destruct Hc' as (-> & -> & _).
  simpl in Hs. injection Hs as <- <- <-. simpl in Hm. injection Hm as <-.
  destruct (delete_pending_created db pending (se_issue e))
    as (H1 & H2 & H3 & H4).
  split; [by exists pending|].
  split; [|split; [exact H1|split; [exact H3|split; [exact H4|by split]]]].
  exact (eq_trans (f_equal (λ m, m !! pid) H1) (next_id_fresh _)).
Qed.

(** ** The status column *)

Lemma erase_status_idemp db : erase_status (erase_status db) = erase_status db.
Proof.
  unfold erase_status, with_pending_users. simpl. f_equal.
  rewrite <-map_fmap_compose. apply map_fmap_ext. intros k p _. by destruct p.
Qed.

Lemma same_up_to_status_set db pid p s :
  pending_users db !! pid = Some p →
  same_up_to_status db
    (with_pending_users (<[pid := PendingUser.set_status s p]>) db).
Proof.
  intros Hp. unfold same_up_to_status, erase_status, with_pending_users.
  simpl. f_equal. rewrite fmap_insert. symmetry. apply insert_id.
  rewrite lookup_fmap, Hp. by destruct p.
Qed.

Lemma verify_pending_user_erase db pid code now created :
  (verify_pending_user db pid code now created).1
  = (verify_pending_user (erase_status db) pid code now created).1
  ∧ erase_status (verify_pending_user db pid code now created).2
    = erase_status
        (verify_pending_user (erase_status db) pid code now created).2.
Proof.
  unfold verify_pending_user.
  change (pending_users (erase_status db))
    with (PendingUser.set_status "" <$> pending_users db).
  rewrite lookup_fmap.
  destruct (pending_users db !! pid) as [pending|]; simpl;
    [|by rewrite erase_status_idemp].
  change (latest_verification (erase_status db) pid)
    with (latest_verification db pid).
  change (user_by_email (erase_status db)) with (user_by_email db).
  change (user_by_username (erase_status db)) with (user_by_username db).
  change (violates_unique (erase_status db)) with (violates_unique db).
  change (PendingUser.to_user (PendingUser.set_status "" pending))
    with (PendingUser.to_user pending).
  destruct (latest_verification db pid) as [[vid v]|];
    [|simpl; by rewrite erase_status_idemp].
  repeat (match goal with
          | |- context [if ?b then _ else _] => destruct b
          end); simpl; try by rewrite erase_status_idemp.
  - split; [done|]. unfold erase_status, with_pending_users,
      with_email_verifications. simpl. f_equal.
    by rewrite <-map_fmap_compose.
  - split; [done|]. unfold erase_status, with_pending_users,
      with_email_verifications. simpl. f_equal.
    rewrite !fmap_insert. f_equal. rewrite <-map_fmap_compose.
    apply map_fmap_ext. intros k p _. by destruct p.
  - split; [done|]. unfold erase_status, delete_pending, with_pending_users,
      with_email_verifications, with_users. simpl. f_equal.
    rewrite !fmap_delete. f_equal. rewrite <-map_fmap_compose.
    apply map_fmap_ext. intros k p _. by destruct p.
Qed.

Lemma resend_code_erase d rr session e :
  resend_code (mkApp (erase_status d) rr) session e
  = let '(resp, app', session') := resend_code (mkApp d rr) session e in
    (resp, mkApp (erase_status (db app')) (recent_resends app'), session').
Proof.
  unfold resend_code. simpl.
  destruct (session !! "pending_id"%string) as [pid|]; [|done].
  change (pending_users (erase_status d))
    with (PendingUser.set_status "" <$> pending_users d).
  rewrite lookup_fmap.
  destruct (pending_users d !! pid) as [pending|]; simpl; [|done].
  by destruct (rate_limited rr (user_key pid) (re_current_time e)).
Qed.

Lemma resend_code_same_up_to_status db1 db2 rr session e :
  same_up_to_status db1 db2 →
  let r1 := resend_code (mkApp db1 rr) session e in
  let r2 := resend_code (mkApp db2 rr) session e in
  r1.1.1 = r2.1.1 ∧ r1.2 = r2.2
  ∧ recent_resends r1.1.2 = recent_resends r2.1.2
  ∧ same_up_to_status (db r1.1.2) (db r2.1.2).
Proof.
  intros Heq r1 r2. unfold r1, r2.
  pose proof (resend_code_erase db1 rr session e) as H1.
  pose proof (resend_code_erase db2 rr session e) as H2.
  unfold same_up_to_status in Heq. rewrite Heq in H1. rewrite H1 in H2.
  destruct (resend_code (mkApp db1 rr) session e) as [[? ?] ?].
  destruct (resend_code (mkApp db2 rr) session e) as [[? ?] ?].
  simpl. repeat split.
  - exact (f_equal (λ x : response * App * gmap string Z, x.1.1) H2).
  - exact (f_equal (λ x : response * App * gmap string Z, x.2) H2).
  - exact (f_equal (λ x : response * App * gmap string Z,
                      recent_resends x.1.2) H2).
  - exact (f_equal (λ x : response * App * gmap string Z, db x.1.2) H2).
Qed.

Lemma resend_then_verify d rr session e pid pending now created :
  session !! "pending_id"%string = Some pid →
  pending_users d !! pid = Some pending →
  rate_limited rr (user_key pid) (re_current_time e) = false →
  ¬ account_conflict d pending →
  ¬ assigned_id_conflict d pending →
  now ≤ ie_now (re_issue e) + minutes 10 →
  ∃ resp app' code,
    resend_code (mkApp d rr) session e = (resp, app', session)
    ∧ mailed resp
      = Some (PendingUser.email pending, PendingUser.username pending, code)
    ∧ latest_verification (db app') pid
      = Some (issued_id d pid, new_verification pid (re_issue e))
    ∧ EmailVerification.code (new_verification pid (re_issue e)) = code
    ∧ (verify_pending_user (db app') pid code now created).1
      = Return (Some (next_id (users d),
                      stored_user created (PendingUser.to_user pending)),
                "Success"%string).
Proof.
  intros Hs Hp Hr Hc Ha Hn. eexists _, _, _. split.
  { by apply (resend_code_issued (mkApp d rr) session e pid pending). }
  simpl. repeat split.
  - apply latest_verification_create.
  - rewrite (verify_success _ pid pending (issued_id d pid)
                            (new_verification pid (re_issue e))); try done.
    apply latest_verification_create.
Qed.

(** C10: the outcome of [verify_pending_user] and of [resend_code] does
    not depend on the status column of [pending_users].  On two databases
    that differ only in the status of registrations (in particular in the
    status of one registration, 'pending' against 'expired') the same call
    returns the same result, and the databases it leaves again differ only
    in status; [resend_code] moreover gives the same response, session and
    throttle table.  So a registration marked 'expired' is still issued a
    fresh code by [resend_code] and, on that code and with no account
    holding its identity, is still promoted to a verified account. *)
Theorem status_independence db1 db2 :
  same_up_to_status db1 db2 →
  (∀ pid code now created,
     (verify_pending_user db1 pid code now created).1
     = (verify_pending_user db2 pid code now created).1
     ∧ same_up_to_status (verify_pending_user db1 pid code now created).2
                         (verify_pending_user db2 pid code now created).2)
  ∧ (∀ rr session e,
       let r1 := resend_code (mkApp db1 rr) session e in
       let r2 := resend_code (mkApp db2 rr) session e in
       r1.1.1 = r2.1.1 ∧ r1.2 = r2.2
       ∧ recent_resends r1.1.2 = recent_resends r2.1.2
       ∧ same_up_to_status (db r1.1.2) (db r2.1.2))
  ∧ (∀ pid p s, pending_users db1 !! pid = Some p →
       same_up_to_status db1
         (with_pending_users (<[pid := PendingUser.set_status s p]>) db1))
  ∧ (∀ pid pending rr session e now created,
       pending_users db1 !! pid = Some pending →
       PendingUser.status pending = "expired"%string →
       session !! "pending_id"%string = Some pid →
       rate_limited rr (user_key pid) (re_current_time e) = false →
       ¬ account_conflict db1 pending →
       ¬ assigned_id_conflict db1 pending →
       now ≤ ie_now (re_issue e) + minutes 10 →
       ∃ resp app' code user,
         resend_code (mkApp db1 rr) session e = (resp, app', session)
         ∧ mailed resp
           = Some (PendingUser.email pending, PendingUser.username pending,
                   code)
         ∧ (verify_pending_user (db app') pid code now created).1
           = Return (Some user, "Success"%string)
         ∧ User.is_verified user.2 = true).
Proof.
  intros Heq. split; [|split; [|split]].
  - intros pid code now created. split.
    + destruct (verify_pending_user_erase db1 pid code now created) as [-> _].
      destruct (verify_pending_user_erase db2 pid code now created) as [-> _].
      unfold same_up_to_status in Heq. by rewrite Heq.
    + destruct (verify_pending_user_erase db1 pid code now created) as [_ H1].
      destruct (verify_pending_user_erase db2 pid code now created) as [_ H2].
      unfold same_up_to_status in *. by rewrite H1, H2, Heq.
  - intros rr session e. by apply resend_code_same_up_to_status.
  - intros pid p s Hp. by apply same_up_to_status_set.
  - intros pid pending rr session e now created Hp _ Hs Hr Hc Ha Hn.
    destruct (resend_then_verify db1 rr session e pid pending now created)
      as (resp & app' & code & H1 & H2 & _ & _ & H3); try done.
    by exists resp, app', code, (next_id (users db1),
                  stored_user created (PendingUser.to_user pending)).
Qed.

(** ** The resend throttle *)

Lemma rate_limited_false rr key now :
  rate_limited rr key now = false ↔
  rr !! key = None
  ∨ ∃ last_resend count, rr !! key = Some (last_resend, count)
                         ∧ (count < 3 ∨ hours 1 ≤ now - last_resend).
Proof.
  unfold rate_limited, total_seconds_lt, hours.
  destruct (rr !! key) as [[l c]|].
  - rewrite andb_false_iff, !bool_decide_eq_false. split.
    + intros H. right. exists l, c. split; [done|lia].
    + intros [?|(? & ? & [= <- <-] & ?)]; [done|lia].
  - split; [by left|done].
Qed.

Lemma note_resend_lookup rr key now :
  note_resend rr key now !! key
  = Some (now, match rr !! key with Some (_, count) => count + 1 | None => 1 end).
Proof.
  unfold note_resend. destruct (rr !! key) as [[l c]|];
    by rewrite lookup_insert_eq.
Qed.

Lemma resend_times_lower_bound lo app session es :
  Forall (Z.le lo) (re_current_time <$> es) →
  Forall (Z.le lo) (resend_times app session es).
Proof.
  revert app session. induction es as [|e es IH]; intros app session Hall.
  - constructor.
  - apply Forall_cons in Hall as [He Hall]. simpl.
    destruct (resend_code app session e) as [[resp app'] session'].
    apply Forall_app. split; [|by apply IH].
    destruct (mailed resp); by repeat constructor.
Qed.

Lemma resends_within_none w times :
  Forall (Z.le (w + hours 1)) times → resends_within w times = 0%nat.
Proof.
  unfold resends_within. induction 1 as [|t times Ht _ IH]; [done|].
  rewrite filter_cons_False; [done|]. unfold in_hour_from. lia.
Qed.

Lemma resends_within_cons w t times :
  (resends_within w (t :: times) ≤ S (resends_within w times))%nat
  ∧ (¬ in_hour_from w t →
     resends_within w (t :: times) = resends_within w times).
Proof.
  unfold resends_within. rewrite filter_cons.
  destruct (decide (in_hour_from w t)); simpl; split; (lia || done).
Qed.

(** With the entry [(last, count)] in the table, the hour that starts at
    [w] holds at most [max 1 (4 - count)] of [last] and the later resends. *)
Lemma resend_times_window app session es pid pending last count w :
  session !! "pending_id"%string = Some pid →
  pending_users (db app) !! pid = Some pending →
  recent_resends app !! user_key pid = Some (last, count) →
  StronglySorted Z.le (last :: (re_current_time <$> es)) →
  Z.of_nat (resends_within w (last :: resend_times app session es))
  ≤ Z.max 1 (4 - count).
Proof.
  intros Hs. revert app last count.
  induction es as [|e es IH]; intros app last count Hp Hr Hsorted.
  - simpl resend_times. destruct (resends_within_cons w last []) as [H _].
    change (resends_within w []) with 0%nat in H. lia.
  - apply StronglySorted_inv in Hsorted as [Hsorted Hlast].
    rewrite fmap_cons in Hsorted, Hlast.
    apply Forall_cons in Hlast as [Hnow Hlast].
    pose proof Hsorted as Hsorted'.
    apply StronglySorted_inv in Hsorted' as [Hrest Hnows].
    simpl resend_times.
    destruct (rate_limited (recent_resends app) (user_key pid)
                           (re_current_time e)) eqn:Hlim.
    + rewrite (resend_code_limited app session e pid pending) by done. simpl.
      apply IH; try done. by constructor.
    + rewrite (resend_code_issued app session e pid pending) by done. simpl.
      set (app' := mkApp _ _).
      assert (Z.of_nat (resends_within w
                (re_current_time e :: resend_times app' session es))
              ≤ Z.max 1 (4 - (count + 1))) as IH'.
      { apply IH; try done. simpl. by rewrite note_resend_lookup, Hr. }
      apply rate_limited_false in Hlim as [Hlim|(l & c & Hlim & Hc)];
        [congruence|].
      rewrite Hr in Hlim. injection Hlim as <- <-.
      destruct (resends_within_cons w last
                  (re_current_time e :: resend_times app' session es))
        as [Hle Hout].
      destruct (decide (count < 3)) as [Hlt|Hge]; [lia|].
      assert (hours 1 ≤ re_current_time e - last) as Hgap by lia.
      destruct (decide (in_hour_from w last)) as [Hin|Hnin].
      * rewrite (resends_within_none w
                   (re_current_time e :: resend_times app' session es))
          in Hle; [lia|].
        unfold in_hour_from in Hin. constructor; [lia|].
        apply resend_times_lower_bound.
        eapply Forall_impl; [exact Hnows|]. simpl. intros; lia.
      * rewrite (Hout Hnin). lia.
Qed.

Lemma resend_times_fresh app session es pid pending w :
  session !! "pending_id"%string = Some pid →
  pending_users (db app) !! pid = Some pending →
  recent_resends app !! user_key pid = None →
  Sorted Z.le (re_current_time <$> es) →
  (resends_within w (resend_times app session es) ≤ 3)%nat.
Proof.
  intros Hs Hp Hr Hsorted. destruct es as [|e es]; [change (0 ≤ 3)%nat; lia|].
  apply Sorted_StronglySorted in Hsorted; [|intros ???; lia].
  simpl resend_times.
  rewrite (resend_code_issued app session e pid pending) by
    (try done; apply rate_limited_false; by left).
  simpl. set (app' := mkApp _ _).
  pose proof (resend_times_window app' session es pid pending
                (re_current_time e) 1 w Hs Hp) as H.
  simpl in H. rewrite note_resend_lookup, Hr in H.
  specialize (H eq_refl Hsorted). lia.
Qed.

(** C5, as the code has it: the throttle lets no more than 3 resends of a
    pending registration fall in any hour (starting from no entry, or from
    an entry that already counts at least one resend), but the count is
    never reset.  Once the entry counts 3 or more, a request under one hour
    after the last resend is refused, and a request one hour or more after
    it is answered with a new code and stores [(now, count + 1)]; the
    request after that one is again refused if it comes within the hour.  So
    after an hour without resends one resend is admitted, not three. *)
Theorem resend_throttle_window app session pid pending :
  session !! "pending_id"%string = Some pid →
  pending_users (db app) !! pid = Some pending →
  (recent_resends app !! user_key pid = None →
   ∀ es w, Sorted Z.le (re_current_time <$> es) →
           (resends_within w (resend_times app session es) ≤ 3)%nat)
  ∧ (∀ last count es w,
       recent_resends app !! user_key pid = Some (last, count) →
       1 ≤ count →
       Sorted Z.le (last :: (re_current_time <$> es)) →
       (resends_within w (last :: resend_times app session es) ≤ 3)%nat)
  ∧ (∀ last count e,
       recent_resends app !! user_key pid = Some (last, count) →
       3 ≤ count →
       (re_current_time e - last < hours 1 →
        resend_code app session e
        = (mkResponse
             ("Too many resend attempts. Please wait before trying again.",
              "danger")%string "auth.verify_code" None, app, session))
       ∧ (hours 1 ≤ re_current_time e - last →
          ∃ resp app' mail,
            resend_code app session e = (resp, app', session)
            ∧ mailed resp = Some mail
            ∧ recent_resends app' !! user_key pid
              = Some (re_current_time e, count + 1)
            ∧ ∀ e2,
                re_current_time e2 - re_current_time e < hours 1 →
                resend_code app' session e2
                = (mkResponse
                     ("Too many resend attempts. Please wait before trying again.",
                      "danger")%string "auth.verify_code" None,
                   app', session))).
Proof.
  intros Hs Hp. split; [|split].
  - intros Hr es w Hsorted.
    by apply (resend_times_fresh app session es pid pending).
  - intros last count es w Hr Hc Hsorted.
    apply Sorted_StronglySorted in Hsorted; [|intros ???; lia].
    pose proof (resend_times_window app session es pid pending last count w
                  Hs Hp Hr Hsorted). lia.
  - intros last count e Hr Hc. split.
    + intros Hlt. apply (resend_code_limited app session e pid pending Hs Hp).
      apply rate_limited_true. eauto.
    + intros Hge. eexists _, _, _. split.
      { apply (resend_code_issued app session e pid pending Hs Hp).
        apply rate_limited_false. right. eauto. }
      simpl. split; [done|]. split.
      { by rewrite note_resend_lookup, Hr. }
      intros e2 Hlt.
      apply (resend_code_limited _ session e2 pid pending Hs); [done|].
      apply rate_limited_true. simpl.
      exists (re_current_time e), (count + 1).
      rewrite note_resend_lookup, Hr. split; [done|lia].
Qed.

(** ** The example, checked *)

Lemma db_alice_no_conflict :
  ¬ account_conflict db_alice alice ∧ ¬ assigned_id_conflict db_alice alice.
Proof.
  split; intros (k & u & Hk & _); vm_compute in Hk; discriminate.
Defined.

Lemma verify_pending_user_promotes_witness :
  ∃ db',
    verify_pending_user db_alice 1 "004711" 2000 2001
    = (Return (Some (1, stored_user 2001 (PendingUser.to_user alice)),
               "Success"%string), db')
    ∧ pending_users db' !! 1 = None
    ∧ codes_of db' 1 = []
    ∧ size (users db') = 1%nat.
Proof.
  destruct (verify_pending_user_promotes db_alice 1 alice 1 alice_code
              "004711" 2000 2001) as (Hany & Hdoes & _).
  - vm_compute. reflexivity.
  - vm_compute. reflexivity.
  - vm_compute. reflexivity.
  - vm_compute. discriminate.
  - vm_compute. reflexivity.
  - apply db_alice_no_conflict.
  - destruct (Hdoes (proj2 db_alice_no_conflict)) as [db' Hv].
    exists db'. split; [exact Hv|].
    destruct (Hany _ _ _ Hv) as (_ & _ & H1 & _ & H2 & _ & _ & _ & H3).
    split; [exact H1|]. split; [exact H2|]. exact H3.
Defined.

Lemma verify_pending_user_accepts_iff_witness :
  code_accepted (verify_pending_user db_alice 1 "004711" 2000 2001).1 = true
  ∧ code_accepted (verify_pending_user db_alice 1 "004712" 2000 2001).1 = false
  ∧ verify_pending_user (create_verification_code db_signed_up 1 alice_issue).2
                        1 "004711" (1000 + minutes 11) 2001
    = (Return (None, "Verification code expired"%string),
       (create_verification_code db_signed_up 1 alice_issue).2).
Proof.
  split; [|split].
  - destruct (verify_pending_user_accepts_iff db_alice 1 alice "004711"
                2000 2001) as ([_ Hacc] & _).
    + vm_compute. reflexivity.
    + apply Hacc. exists 1, alice_code. vm_compute.
      repeat split; discriminate.
  - destruct (verify_pending_user_accepts_iff db_alice 1 alice "004712"
                2000 2001) as ([Hacc _] & _).
    + vm_compute. reflexivity.
    + destruct (code_accepted _); [|reflexivity].
      destruct (Hacc eq_refl) as (vid & v & Hl & Hc & _).
      vm_compute in Hl. injection Hl as <- <-. discriminate Hc.
  - destruct (verify_pending_user_accepts_iff db_signed_up 1 alice "" 0 0)
      as (_ & _ & _ & Hexp).
    + vm_compute. reflexivity.
    + apply Hexp.
Defined.

Lemma verify_pending_user_attempt_limit_witness :
  verify_pending_user db_locked 1 "004711" 2000 2001
  = (Return (None, "Too many attempts"%string), db_locked)
  ∧ (∃ db' v',
       verify_pending_user db_alice 1 "000000" 2000 2001
       = (Return (None, "Invalid verification code"%string), db')
       ∧ latest_verification db' 1 = Some (1, v')
       ∧ EmailVerification.attempts v' = 0 + 1)
  ∧ verify_pending_user
      (submit_codes db_alice 1
         [("000000"%string, 2000, 2000); ("000001"%string, 2001, 2001);
          ("000002"%string, 2002, 2002); ("000003"%string, 2003, 2003);
          ("000004"%string, 2004, 2004)])
      1 "004711" 2005 2005
    = (Return (None, "Too many attempts"%string),
       submit_codes db_alice 1
         [("000000"%string, 2000, 2000); ("000001"%string, 2001, 2001);
          ("000002"%string, 2002, 2002); ("000003"%string, 2003, 2003);
          ("000004"%string, 2004, 2004)]).
Proof.
  split; [|split].
  - apply (verify_pending_user_attempt_limit db_locked 1 alice 1
             (EmailVerification.set_attempts 5 alice_code) 2000 2001).
    + vm_compute. reflexivity.
    + vm_compute. reflexivity.
    + vm_compute. discriminate.
    + vm_compute. discriminate.
  - destruct (verify_pending_user_attempt_limit db_alice 1 alice 1 alice_code
                2000 2001) as (_ & Hwrong & _).
    + vm_compute. reflexivity.
    + vm_compute. reflexivity.
    + vm_compute. discriminate.
    + destruct (Hwrong eq_refl "000000"%string) as (db' & v' & H1 & H2 & H3 & _).
      { discriminate. }
      exists db', v'. split; [exact H1|]. split; [exact H2|exact H3].
  - apply (verify_pending_user_attempt_limit db_alice 1 alice 1 alice_code
             2000 2001).
    + vm_compute. reflexivity.
    + vm_compute. reflexivity.
    + vm_compute. discriminate.
    + reflexivity.
    + reflexivity.
    + repeat constructor; simpl; (discriminate || (vm_compute; discriminate)).
    + vm_compute. discriminate.
Defined.

Lemma create_verification_code_exactly_one_witness :
  codes_of (create_verification_code db_alice 1 (mkIssueEnv 99 3000 3000 3000)).2 1
  = [(1, new_verification 1 (mkIssueEnv 99 3000 3000 3000))]
  ∧ length (codes_of (create_verification_code db_alice 1
                        (mkIssueEnv 99 3000 3000 3000)).2 1) = 1%nat.
Proof.
  destruct (create_verification_code_exactly_one db_alice 1
              (mkIssueEnv 99 3000 3000 3000)) as (H1 & H2 & _).
  split; [exact H1|exact H2].
Defined.

Lemma verify_pending_user_already_exists_witness :
  ∃ db' pending',
    verify_pending_user db_taken 1 "004711" 2000 2001
    = (Return (None, "User already exists"%string), db')
    ∧ email_verifications db' !! 1 = None
    ∧ pending_users db' !! 1 = Some pending'
    ∧ PendingUser.status pending' = "expired"%string
    ∧ users db' = users db_taken.
Proof.
  destruct (verify_pending_user_already_exists db_taken 1 alice 1 alice_code
              "004711" 2000 2001)
    as (db' & p' & H1 & H2 & _ & H3 & H4 & _ & _ & H5).
  - vm_compute. reflexivity.
  - vm_compute. reflexivity.
  - vm_compute. reflexivity.
  - vm_compute. discriminate.
  - vm_compute. reflexivity.
  - exists 1, mallory. split; [vm_compute; reflexivity|]. left. reflexivity.
  - exists db', p'. repeat split; assumption.
Defined.

Lemma resend_code_too_many_resends_witness :
  ∃ resp,
    resend_code app_throttled alice_session (resend_at (seconds 5))
    = (resp, app_throttled, alice_session)
    ∧ mailed resp = None
    ∧ codes_of (db app_throttled) 1 = [(1, alice_code)].
Proof.
  destruct (resend_code_too_many_resends app_throttled alice_session
              (resend_at (seconds 5)) 1 alice (seconds 2) 3)
    as (resp & app' & session' & H1 & _ & _ & H2 & -> & -> & _).
  - vm_compute. reflexivity.
  - vm_compute. reflexivity.
  - vm_compute. reflexivity.
  - vm_compute. reflexivity.
  - vm_compute. discriminate.
  - exists resp. split; [exact H1|]. split; [exact H2|].
    vm_compute. reflexivity.
Defined.

Lemma signup_mail_failure_witness :
  ∃ resp db',
    signup db_alice ∅ bob_form (bob_env false) = (resp, db', ∅)
    ∧ mailed resp = Some ("bob@x.com", "Bob", "000815")%string
    ∧ pending_users db' !! 2 = None
    ∧ pending_users db' = pending_users db_alice
    ∧ codes_of db' 2 = [].
Proof.
  destruct (signup db_alice ∅ bob_form (bob_env false))
    as [[resp db'] session'] eqn:Hs.
  assert (mailed resp = Some ("bob@x.com", "Bob", "000815")%string) as Hm.
  { vm_compute in Hs. by injection Hs as <- _ _. }
  destruct (signup_mail_failure db_alice ∅ bob_form (bob_env false)
              resp db' session' _ eq_refl Hs Hm)
    as (_ & H1 & H2 & H3 & _ & _ & -> & _).
  exists resp, db'. split; [reflexivity|]. split; [exact Hm|].
  split; [exact H1|]. split; [exact H2|exact H3].
Defined.

(** C9 fails on the code: no PendingRegistration has id 7, and
    [create_verification_code] still returns a code and persists its row. *)
Lemma create_verification_code_not_found_counterexample :
  pending_users db_alice !! 7 = None
  ∧ create_verification_code db_alice 7 alice_issue
    = ("004711"%string,
       mkDb ∅ {[ 1 := alice ]}
            {[ 1 := alice_code; 2 := new_verification 7 alice_issue ]})
  ∧ codes_of (create_verification_code db_alice 7 alice_issue).2 7
    = [(2, new_verification 7 alice_issue)].
Proof.
  split; [|split]; vm_compute; reflexivity.
Defined.

Lemma create_verification_code_unchecked_witness :
  (∃ db', create_verification_code db_alice 7 alice_issue = ("004711"%string, db')
          ∧ codes_of db' 7 = [(2, new_verification 7 alice_issue)])
  ∧ resend_code (mkApp db_alice ∅) {[ "pending_id"%string := 7 ]}
                (resend_at 3000)
    = (mkResponse ("Invalid session. Please sign up again.", "danger")%string
                  "auth.signup" None,
       mkApp db_alice ∅, ∅)
  ∧ verify_pending_user db_alice 7 "004711" 2000 2001
    = (Return (None, "Invalid session"%string), db_alice).
Proof.
  destruct (create_verification_code_unchecked db_alice 7 alice_issue)
    as ((db' & H1 & H2 & _) & H3 & H4).
  - vm_compute. reflexivity.
  - split; [|split].
    + exists db'. split; [exact H1|exact H2].
    + rewrite (H3 ∅ {[ "pending_id"%string := 7 ]} (resend_at 3000))
        by (vm_compute; reflexivity).
      vm_compute. reflexivity.
    + apply H4.
Defined.

(** C5 fails on the code: three resends at 0 s, 1 s and 2 s, then nothing
    for an hour.  Of the three requests of the next hour (at 1 h + 2 s,
    1 h + 3 s and 1 h + 4 s) only the first is answered with a new code. *)
Lemma resend_window_reset_counterexample :
  resend_times (mkApp db_alice ∅) alice_session
    [resend_at 0; resend_at (seconds 1); resend_at (seconds 2);
     resend_at (hours 1 + seconds 2); resend_at (hours 1 + seconds 3);
     resend_at (hours 1 + seconds 4)]
  = [0; seconds 1; seconds 2; hours 1 + seconds 2]
  ∧ resends_within (hours 1 + seconds 2)
      (resend_times (mkApp db_alice ∅) alice_session
         [resend_at 0; resend_at (seconds 1); resend_at (seconds 2);
          resend_at (hours 1 + seconds 2); resend_at (hours 1 + seconds 3);
          resend_at (hours 1 + seconds 4)]) = 1%nat.
Proof.
  split; vm_compute; reflexivity.
Defined.

Lemma resend_throttle_window_witness :
  (resends_within 0
     (resend_times (mkApp db_alice ∅) alice_session
        [resend_at 0; resend_at (seconds 1); resend_at (seconds 2);
         resend_at (seconds 3); resend_at (hours 1 + seconds 2)]) ≤ 3)%nat
  ∧ ∃ resp app' mail,
      resend_code app_throttled alice_session (resend_at (hours 1 + seconds 2))
      = (resp, app', alice_session)
      ∧ mailed resp = Some mail
      ∧ recent_resends app' !! user_key 1 = Some (hours 1 + seconds 2, 3 + 1)
      ∧ resend_code app' alice_session (resend_at (hours 1 + seconds 3))
        = (mkResponse
             ("Too many resend attempts. Please wait before trying again.",
              "danger")%string "auth.verify_code" None,
           app', alice_session).
Proof.
  split.
  - destruct (resend_throttle_window (mkApp db_alice ∅) alice_session 1 alice)
      as (Hfresh & _).
    + vm_compute. reflexivity.
    + vm_compute. reflexivity.
    + apply Hfresh; [vm_compute; reflexivity|].
      repeat constructor; vm_compute; discriminate.
  - destruct (resend_throttle_window app_throttled alice_session 1 alice)
      as (_ & _ & Hfull).
    + vm_compute. reflexivity.
    + vm_compute. reflexivity.
    + destruct (Hfull (seconds 2) 3 (resend_at (hours 1 + seconds 2)))
        as [_ Hlate].
      * vm_compute. reflexivity.
      * vm_compute. discriminate.
      * destruct Hlate as (resp & app' & mail & H1 & H2 & H3 & H4).
        { vm_compute. discriminate. }
        exists resp, app', mail. split; [exact H1|]. split; [exact H2|].
        split; [exact H3|]. apply H4. vm_compute. reflexivity.
Defined.

Lemma status_independence_witness :
  (verify_pending_user db_alice 1 "004711" 2000 2001).1
  = (verify_pending_user db_alice_expired 1 "004711" 2000 2001).1
  ∧ ∃ resp app' code user,
      resend_code (mkApp db_alice_expired ∅) alice_session (resend_at 3000)
      = (resp, app', alice_session)
      ∧ mailed resp = Some ("alice@x.com"%string, "alice"%string, code)
      ∧ (verify_pending_user (db app') 1 code 4000 4001).1
        = Return (Some user, "Success"%string).
Proof.
  split.
  - destruct (status_independence db_alice db_alice_expired) as (Hv & _).
    + vm_compute. reflexivity.
    + apply Hv.
  - destruct (status_independence db_alice_expired db_alice_expired eq_refl)
      as (_ & _ & _ & Hpromote).
    destruct (Hpromote 1 (PendingUser.set_status "expired" alice) ∅
                alice_session (resend_at 3000) 4000 4001)
      as (resp & app' & code & user & H1 & H2 & H3 & _).
    + vm_compute. reflexivity.
    + reflexivity.
    + vm_compute. reflexivity.
    + vm_compute. reflexivity.
    + intros (k & u & Hk & _). vm_compute in Hk. discriminate.
    + intros (k & u & Hk & _). vm_compute in Hk. discriminate.
    + vm_compute. discriminate.
    + exists resp, app', code, user. split; [exact H1|].
      split; [exact H2|exact H3].
Defined.

(** * Further properties of the code *)

(** ** Strings *)

Lemma length_app (s1 s2 : string) :
  String.length (s1 +:+ s2) = (String.length s1 + String.length s2)%nat.
Proof. induction s1 as [|c s1 IH]; simpl; [done|]. by rewrite IH. Qed.

Lemma all_digits_app (s1 s2 : string) :
  all_digits (s1 +:+ s2) = all_digits s1 && all_digits s2.
Proof.
  induction s1 as [|c s1 IH]; simpl; [done|]. by rewrite IH, andb_assoc.
Qed.

Lemma zeros_length k :
  String.length (String.concat "" (replicate k "0"%string)) = k.
Proof.
  induction k as [|k IH]; [done|]. simpl replicate.
  destruct k as [|k]; [done|].
  change (String.concat "" ("0"%string :: replicate (S k) "0"%string))
    with ("0" +:+ "" +:+ String.concat "" (replicate (S k) "0"%string)).
  rewrite !length_app, IH. done.
Qed.

Lemma zeros_digits k :
  all_digits (String.concat "" (replicate k "0"%string)) = true.
Proof.
  induction k as [|k IH]; [done|]. simpl replicate.
  destruct k as [|k]; [done|].
  change (String.concat "" ("0"%string :: replicate (S k) "0"%string))
    with ("0" +:+ "" +:+ String.concat "" (replicate (S k) "0"%string)).
  rewrite !all_digits_app, IH. done.
Qed.

Lemma pretty_N_char_digit x : is_digit (pretty_N_char x) = true.
Proof. unfold pretty_N_char. by repeat case_match. Qed.

Lemma pretty_N_go_digits x s :
  all_digits s = true → all_digits (pretty_N_go x s) = true.
Proof.
  revert s. induction (N.lt_wf_0 x) as [x _ IH]; intros s Hs.
  destruct (decide (x = 0)%N) as [->|Hx]; [by rewrite pretty_N_go_0|].
  rewrite pretty_N_go_step by lia. apply IH.
  - apply N.div_lt; lia.
  - simpl. by rewrite pretty_N_char_digit, Hs.
Qed.

Lemma pretty_N_go_length k x s :
  (x < 10 ^ N.of_nat k)%N →
  (String.length (pretty_N_go x s) ≤ k + String.length s)%nat.
Proof.
  revert x s. induction k as [|k IH]; intros x s Hx.
  - assert (x = 0%N) as -> by (simpl in Hx; lia).
    rewrite pretty_N_go_0. lia.
  - destruct (decide (x = 0)%N) as [->|Hx0]; [rewrite pretty_N_go_0; lia|].
    rewrite pretty_N_go_step by lia.
    etrans; [apply IH|simpl; lia].
    apply N.Div0.div_lt_upper_bound.
    rewrite Nat2N.inj_succ, N.pow_succ_r' in Hx. lia.
Qed.

Lemma pretty_Z_shape k (n : Z) :
  (0 < k)%nat → 0 ≤ n < 10 ^ Z.of_nat k →
  (String.length (pretty n) ≤ k)%nat ∧ all_digits (pretty n) = true.
Proof.
  intros Hk Hn. destruct n as [|p|p]; [| |lia].
  - split; [simpl; lia|done].
  - change (pretty (Z.pos p)) with (pretty (N.pos p)).
    unfold pretty, pretty_N. rewrite decide_False by done. split.
    + pose proof (pretty_N_go_length k (N.pos p) "") as H.
      simpl in H. rewrite Nat.add_0_r in H. apply H.
      apply N2Z.inj_lt. rewrite N2Z.inj_pow, nat_N_Z. simpl. lia.
    + by apply pretty_N_go_digits.
Qed.

(** [f"{n:0{width}d}"] of a number of at most [width] digits is exactly
    [width] decimal digits. *)
Lemma format_0d_shape width (n : Z) :
  (0 < width)%nat → 0 ≤ n < 10 ^ Z.of_nat width →
  String.length (format_0d width n) = width
  ∧ all_digits (format_0d width n) = true.
Proof.
  intros Hw Hn. destruct (pretty_Z_shape width n Hw Hn) as [Hlen Hdig].
  unfold format_0d. rewrite length_app, all_digits_app, zeros_length,
    zeros_digits, Hdig. split; [lia|done].
Qed.

(** ** The shape of codes and assigned ids *)

(** X1: for a draw in 0..999999, the code that [create_verification_code]
    returns is exactly six decimal digits, and it is the code of the one
    row the registration then has, which starts with no attempts and expires
    ten minutes after the issuing clock reading. *)
Theorem create_verification_code_six_digits db pid e :
  0 ≤ ie_rand e ≤ 999999 →
  let code := (create_verification_code db pid e).1 in
  let db' := (create_verification_code db pid e).2 in
  String.length code = 6%nat
  ∧ all_digits code = true
  ∧ ∃ vid v, codes_of db' pid = [(vid, v)]
             ∧ EmailVerification.code v = code
             ∧ EmailVerification.attempts v = 0
             ∧ EmailVerification.expires_at v = ie_now e + minutes 10.
Proof.
  intros Hr code db'.
  destruct (format_0d_shape 6 (ie_rand e)) as [Hlen Hdig]; [lia|simpl; lia|].
  split; [exact Hlen|]. split; [exact Hdig|].
  exists (issued_id db pid), (new_verification pid e).
  split; [apply create_verification_code_codes|done].
Qed.

Lemma create_verification_code_six_digits_witness :
  String.length (create_verification_code db_alice 1 alice_issue).1 = 6%nat
  ∧ all_digits (create_verification_code db_alice 1 alice_issue).1 = true.
Proof.
  destruct (create_verification_code_six_digits db_alice 1 alice_issue)
    as (H1 & H2 & _).
  - vm_compute. split; discriminate.
  - split; [exact H1|exact H2].
Defined.

(** X2: [get_avatar_path] only ever returns one of the three default avatar
    paths.  The gender is compared case-insensitively; a missing, empty or
    unknown gender gives the 'other' avatar. *)
Theorem get_avatar_path_range gender :
  (get_avatar_path gender = "avatars/male_default.png"%string
   ∨ get_avatar_path gender = "avatars/female_default.png"%string
   ∨ get_avatar_path gender = "avatars/other_default.png"%string)
  ∧ (∀ g, gender = Some g → lower g = "male"%string →
          get_avatar_path gender = "avatars/male_default.png"%string)
  ∧ (∀ g, gender = Some g → lower g = "female"%string →
          get_avatar_path gender = "avatars/female_default.png"%string)
  ∧ (∀ g, gender = Some g →
          lower g ≠ "male"%string → lower g ≠ "female"%string →
          get_avatar_path gender = "avatars/other_default.png"%string)
  ∧ (gender = None →
     get_avatar_path gender = "avatars/other_default.png"%string).
Proof.
  unfold get_avatar_path. split; [|split; [|split; [|split]]].
  - destruct gender as [g|]; [|by right; right].
    set (l := lower (if bool_decide (g = ""%string) then "other"%string else g)).
    destruct (bool_decide (l = "male"%string)) eqn:Hm; simpl.
    { apply bool_decide_eq_true in Hm. rewrite Hm. by left. }
    destruct (bool_decide (l = "female"%string)) eqn:Hf; simpl.
    { apply bool_decide_eq_true in Hf. rewrite Hf. by right; left. }
    destruct (bool_decide (l = "other"%string)) eqn:Ho; simpl.
    { apply bool_decide_eq_true in Ho. rewrite Ho. by right; right. }
    by right; right.
  - intros g -> Hg.
    assert (g ≠ ""%string) as Hne by (intros ->; discriminate Hg).
    by rewrite (bool_decide_eq_false_2 _ Hne), Hg.
  - intros g -> Hg.
    assert (g ≠ ""%string) as Hne by (intros ->; discriminate Hg).
    by rewrite (bool_decide_eq_false_2 _ Hne), Hg.
  - intros g -> Hm Hf. destruct (decide (g = ""%string)) as [->|Hne]; [done|].
    rewrite (bool_decide_eq_false_2 _ Hne).
    rewrite (bool_decide_eq_false_2 _ Hm), (bool_decide_eq_false_2 _ Hf). simpl.
    destruct (bool_decide (lower g = "other"%string)) eqn:Ho; [|done].
    apply bool_decide_eq_true in Ho. by rewrite Ho.
  - by intros ->.
Qed.

Lemma get_avatar_path_range_witness :
  get_avatar_path (Some "FeMale"%string) = "avatars/female_default.png"%string
  ∧ get_avatar_path (Some "robot"%string) = "avatars/other_default.png"%string.
Proof.
  destruct (get_avatar_path_range (Some "FeMale"%string)) as (_ & _ & Hf & _).
  destruct (get_avatar_path_range (Some "robot"%string)) as (_ & _ & _ & Ho & _).
  split.
  - by apply (Hf "FeMale"%string).
  - apply (Ho "robot"%string); [done|vm_compute; discriminate..].
Defined.


Lemma generate_assigned_id_from_spec db prefix rand i tries :
  match generate_assigned_id_from db prefix rand i tries with
  | Return c =>
      ∃ j, (j < tries)%nat
           ∧ c = prefix +:+ format_04d (rand (i + j)%nat)
           ∧ assigned_id_taken db c = false
           ∧ ∀ j', (j' < j)%nat →
                   assigned_id_taken db
                     (prefix +:+ format_04d (rand (i + j')%nat)) = true
  | Raise ex =>
      ex = RuntimeError "Failed to generate unique assigned ID"
      ∧ ∀ j, (j < tries)%nat →
             assigned_id_taken db
               (prefix +:+ format_04d (rand (i + j)%nat)) = true
  end.
Proof.
  revert i. induction tries as [|tries IH]; intros i; simpl.
  - split; [done|]. intros j Hj. lia.
  - destruct (assigned_id_taken db (prefix +:+ format_04d (rand i))) eqn:E.
    + specialize (IH (S i)).
      destruct (generate_assigned_id_from db prefix rand (S i) tries) as [c|ex].
      * destruct IH as (j & Hj & -> & Hfree & Hbefore).
        exists (S j). rewrite <-Nat.add_succ_comm. split; [lia|].
        split; [done|]. split; [done|].
        intros [|j'] Hj'; [by rewrite Nat.add_0_r|].
        rewrite <-Nat.add_succ_comm. apply Hbefore. lia.
      * destruct IH as [-> Hall]. split; [done|].
        intros [|j] Hj; [by rewrite Nat.add_0_r|].
        rewrite <-Nat.add_succ_comm. apply Hall. lia.
    + exists 0%nat. rewrite Nat.add_0_r. split; [lia|]. split; [done|].
      split; [done|]. intros j' Hj'. lia.
Qed.


(** ** Creating a registration *)

Lemma no_row_by {A} (P : A → bool) (t : gmap Z A) :
  bool_decide (is_Some (first (filter_by P t))) = false ↔
  ∀ k v, t !! k = Some v → P v = false.
Proof.
  rewrite bool_decide_eq_false, <-first_filter_by_None.
  destruct (first (filter_by P t)); split; try done.
  intros H. destruct H. by eexists.
Qed.

Lemma assigned_id_taken_false db c :
  assigned_id_taken db c = false ↔
  (∀ k u, users db !! k = Some u → User.assigned_id u ≠ c)
  ∧ (∀ k p, pending_users db !! k = Some p → PendingUser.assigned_id p ≠ c).
Proof.
  unfold assigned_id_taken, user_by_assigned_id, pending_by_assigned_id.
  rewrite orb_false_iff, !no_row_by.
  by setoid_rewrite bool_decide_eq_false.
Qed.

(** X4: [create_pending_user] either raises RuntimeError and leaves the
    database as it was, or adds exactly one row to [pending_users], under an
    id no registration had, and touches nothing else.  The new registration
    has status 'pending', expires 24 hours after the clock reading of its
    default, and carries an [assigned_id] that no account and no other
    registration holds. *)
Theorem create_pending_user_frame db username email name gender e :
  match create_pending_user db username email name gender e with
  | (Return (pid, pending), db') =>
      pending_users db !! pid = None
      ∧ pending_users db' = <[pid := pending]> (pending_users db)
      ∧ size (pending_users db') = S (size (pending_users db))
      ∧ users db' = users db
      ∧ email_verifications db' = email_verifications db
      ∧ PendingUser.username pending = username
      ∧ PendingUser.email pending = email
      ∧ PendingUser.status pending = "pending"%string
      ∧ PendingUser.expires_at pending = se_expires_now e + hours 24
      ∧ (∀ k u, users db !! k = Some u →
                User.assigned_id u ≠ PendingUser.assigned_id pending)
      ∧ (∀ k p, pending_users db !! k = Some p →
                PendingUser.assigned_id p ≠ PendingUser.assigned_id pending)
  | (Raise ex, db') =>
      db' = db ∧ ex = RuntimeError "Failed to generate unique assigned ID"
  end.
Proof.
  unfold create_pending_user, generate_assigned_id.
  set (prefix := String.substring 0 3 _).
  pose proof (generate_assigned_id_from_spec db prefix (se_rand_id e) 0 30) as H.
  destruct (generate_assigned_id_from db prefix (se_rand_id e) 0 30)
    as [c|ex] eqn:E.
  - apply generate_assigned_id_from_free in E.
    apply assigned_id_taken_false in E as [Hfu Hfp]. simpl.
    split; [apply next_id_fresh|]. split; [done|].
    split; [apply size_add_row|]. by repeat split.
  - by destruct H as [-> _].
Qed.

(** ** Signup as a whole *)



Lemma no_pending_by_email db e :
  bool_decide (is_Some (pending_by_email db e)) = false ↔
  ∀ k p, pending_users db !! k = Some p → PendingUser.email p ≠ e.
Proof.
  unfold pending_by_email. rewrite no_row_by.
  by setoid_rewrite bool_decide_eq_false.
Qed.

Lemma no_pending_by_username db n :
  bool_decide (is_Some (pending_by_username db n)) = false ↔
  ∀ k p, pending_users db !! k = Some p → PendingUser.username p ≠ n.
Proof.
  unfold pending_by_username. rewrite no_row_by.
  by setoid_rewrite bool_decide_eq_false.
Qed.








(** ** What every reachable store satisfies *)

Lemma store_ok_empty : store_ok (mkDb ∅ ∅ ∅).
Proof. split; simpl; intros; simplify_map_eq. Qed.

Lemma store_ok_create_verification_code db pid e :
  is_Some (pending_users db !! pid) → store_ok db →
  store_ok (create_verification_code db pid e).2.
Proof.
  intros Hpid [Hfree Hdist Howned Hone Hatt Hver Hst].
  assert (∀ k v,
            email_verifications (create_verification_code db pid e).2 !! k
            = Some v →
            (v = new_verification pid e)
            ∨ (email_verifications db !! k = Some v
               ∧ EmailVerification.pending_user_id v ≠ Some pid)) as Hrows.
  { intros k v Hk. rewrite create_verification_code_table in Hk.
    unfold issued_id in Hk.
    change (<[next_id ?t := ?x]> ?t) with (add_row x t) in Hk.
    apply lookup_add_row in Hk as [[_ ->]|Hk]; [by left|right].
    apply lookup_delete_where in Hk as [Hk Hv].
    by apply for_pending_false in Hv. }
  split.
  - exact Hfree.
  - exact Hdist.
  - intros k v Hk. apply Hrows in Hk as [->|[Hk _]].
    + by exists pid.
    + by apply (Howned k v).
  - intros k1 v1 k2 v2 H1 H2 Heq.
    pose proof (create_verification_code_codes db pid e) as Hcodes.
    destruct (Hrows _ _ H1) as [->|[H1' Hv1]],
             (Hrows _ _ H2) as [->|[H2' Hv2]].
    + assert ((k1, new_verification pid e)
              ∈ codes_of (create_verification_code db pid e).2 pid) as Hin1
        by by apply elem_of_codes_of.
      assert ((k2, new_verification pid e)
              ∈ codes_of (create_verification_code db pid e).2 pid) as Hin2
        by by apply elem_of_codes_of.
      rewrite Hcodes in Hin1, Hin2.
      apply list_elem_of_singleton in Hin1, Hin2. congruence.
    + by destruct Hv2.
    + by destruct Hv1.
    + by apply (Hone k1 v1 k2 v2).
  - intros k v Hk. apply Hrows in Hk as [->|[Hk _]]; [simpl; lia|].
    by apply (Hatt k v).
  - exact Hver.
  - exact Hst.
Qed.

Lemma store_ok_delete_pending db pid :
  store_ok db → store_ok (delete_pending pid db).
Proof.
  intros [Hfree Hdist Howned Hone Hatt Hver Hst].
  assert (∀ k p, pending_users (delete_pending pid db) !! k = Some p →
                 k ≠ pid ∧ pending_users db !! k = Some p) as Hp.
  { intros k p Hk. simpl in Hk. apply lookup_delete_Some in Hk as [??].
    by split. }
  assert (∀ k v, email_verifications (delete_pending pid db) !! k = Some v →
                 email_verifications db !! k = Some v
                 ∧ EmailVerification.pending_user_id v ≠ Some pid) as Hv.
  { intros k v Hk. simpl in Hk. apply lookup_delete_where in Hk as [Hk Hf].
    by apply for_pending_false in Hf. }
  split.
  - intros k p Hk. apply Hp in Hk as [_ Hk]. by apply (Hfree k p).
  - intros k1 p1 k2 p2 H1 H2. apply Hp in H1 as [_ H1], H2 as [_ H2].
    by apply (Hdist k1 p1 k2 p2).
  - intros k v Hk. apply Hv in Hk as [Hk Hne].
    destruct (Howned k v Hk) as (pid' & Hpid' & Hsome).
    exists pid'. split; [done|]. simpl.
    rewrite lookup_delete_ne; [done|]. congruence.
  - intros k1 v1 k2 v2 H1 H2. apply Hv in H1 as [H1 _], H2 as [H2 _].
    by apply (Hone k1 v1 k2 v2).
  - intros k v Hk. apply Hv in Hk as [Hk _]. by apply (Hatt k v).
  - exact Hver.
  - intros k p Hk. apply Hp in Hk as [_ Hk]. by apply (Hst k p).
Qed.

Lemma store_ok_add_pending db pending :
  store_ok db →
  ¬ assigned_id_conflict db pending →
  (∀ k p, pending_users db !! k = Some p →
          PendingUser.assigned_id p ≠ PendingUser.assigned_id pending
          ∧ PendingUser.email p ≠ PendingUser.email pending
          ∧ PendingUser.username p ≠ PendingUser.username pending) →
  PendingUser.status pending = "pending"%string →
  store_ok (with_pending_users (add_row pending) db).
Proof.
  intros [Hfree Hdist Howned Hone Hatt Hver Hst] Hnew Hother Hstatus.
  assert (∀ k p,
            pending_users (with_pending_users (add_row pending) db) !! k
            = Some p →
            (k = next_id (pending_users db) ∧ p = pending)
            ∨ pending_users db !! k = Some p) as Hp.
  { intros k p Hk. simpl in Hk. by apply lookup_add_row in Hk. }
  split.
  - intros k p Hk. apply Hp in Hk as [[_ ->]|Hk]; [exact Hnew|].
    by apply (Hfree k p).
  - intros k1 p1 k2 p2 H1 H2 Heq.
    apply Hp in H1 as [[-> ->]|H1], H2 as [[-> ->]|H2]; [done|..].
    + destruct (Hother _ _ H2) as (? & ? & ?).
      destruct Heq as [?|[?|?]]; congruence.
    + destruct (Hother _ _ H1) as (? & ? & ?).
      destruct Heq as [?|[?|?]]; congruence.
    + by apply (Hdist k1 p1 k2 p2).
  - intros k v Hk. destruct (Howned k v Hk) as (pid' & Hpid' & [q Hq]).
    exists pid'. split; [done|]. exists q. simpl.
    by apply lookup_add_row_old.
  - exact Hone.
  - exact Hatt.
  - exact Hver.
  - intros k p Hk. apply Hp in Hk as [[_ ->]|Hk]; [by left|].
    by apply (Hst k p).
Qed.

Lemma store_ok_set_attempts db vid v n :
  email_verifications db !! vid = Some v → 0 ≤ n ≤ 5 → store_ok db →
  store_ok (with_email_verifications
              (<[vid := EmailVerification.set_attempts n v]>) db).
Proof.
  intros Hvid Hn [Hfree Hdist Howned Hone Hatt Hver Hst].
  assert (∀ k w,
            (<[vid := EmailVerification.set_attempts n v]>
               (email_verifications db)) !! k = Some w →
            ∃ w0, email_verifications db !! k = Some w0
                  ∧ EmailVerification.pending_user_id w
                    = EmailVerification.pending_user_id w0
                  ∧ 0 ≤ EmailVerification.attempts w ≤ 5) as Hrows.
  { intros k w Hk. destruct (decide (vid = k)) as [<-|Hne].
    - rewrite lookup_insert_eq in Hk. injection Hk as <-. by exists v.
    - rewrite lookup_insert_ne in Hk by done. exists w.
      split; [done|]. split; [done|]. by apply (Hatt k w). }
  split; simpl.
  - exact Hfree.
  - exact Hdist.
  - intros k w Hk. destruct (Hrows _ _ Hk) as (w0 & Hk0 & -> & _).
    by apply (Howned k w0).
  - intros k1 w1 k2 w2 H1 H2 Heq.
    destruct (Hrows _ _ H1) as (w1' & H1' & E1 & _).
    destruct (Hrows _ _ H2) as (w2' & H2' & E2 & _).
    apply (Hone k1 w1' k2 w2' H1' H2'). congruence.
  - intros k w Hk. by destruct (Hrows _ _ Hk) as (_ & _ & _ & ?).
  - exact Hver.
  - exact Hst.
Qed.

Lemma store_ok_mark_expired db pid pending vid :
  pending_users db !! pid = Some pending → store_ok db →
  store_ok (with_pending_users
              (<[pid := PendingUser.set_status "expired" pending]>)
              (with_email_verifications (delete vid) db)).
Proof.
  intros Hpid [Hfree Hdist Howned Hone Hatt Hver Hst].
  assert (∀ k p,
            (<[pid := PendingUser.set_status "expired" pending]>
               (pending_users db)) !! k = Some p →
            ∃ p0, pending_users db !! k = Some p0
                  ∧ PendingUser.assigned_id p = PendingUser.assigned_id p0
                  ∧ PendingUser.email p = PendingUser.email p0
                  ∧ PendingUser.username p = PendingUser.username p0
                  ∧ (PendingUser.status p = "pending"%string
                     ∨ PendingUser.status p = "expired"%string)) as Hp.
  { intros k p Hk. destruct (decide (pid = k)) as [<-|Hne].
    - rewrite lookup_insert_eq in Hk. injection Hk as <-. exists pending.
      repeat split; try done. by right.
    - rewrite lookup_insert_ne in Hk by done. exists p.
      repeat split; try done. by apply (Hst k p). }
  assert (∀ k w, delete vid (email_verifications db) !! k = Some w →
                 email_verifications db !! k = Some w) as Hv.
  { intros k w Hk. by apply lookup_delete_Some in Hk as [_ Hk]. }
  split; simpl.
  - intros k p Hk. destruct (Hp _ _ Hk) as (p0 & Hk0 & Ea & _).
    intros (k' & u & Hu & Hau). apply (Hfree k p0 Hk0).
    exists k', u. split; [done|]. congruence.
  - intros k1 p1 k2 p2 H1 H2 Heq.
    destruct (Hp _ _ H1) as (q1 & H1' & Ea1 & Ee1 & Eu1 & _).
    destruct (Hp _ _ H2) as (q2 & H2' & Ea2 & Ee2 & Eu2 & _).
    apply (Hdist k1 q1 k2 q2 H1' H2').
    destruct Heq as [?|[?|?]]; [left|right; left|right; right]; congruence.
  - intros k w Hk. apply Hv in Hk.
    destruct (Howned k w Hk) as (pid' & Hpid' & [q Hq]).
    exists pid'. split; [done|].
    destruct (decide (pid = pid')) as [<-|Hne].
    + rewrite lookup_insert_eq. by eexists.
    + rewrite lookup_insert_ne by done. by eexists.
  - intros k1 w1 k2 w2 H1 H2. apply Hv in H1, H2.
    by apply (Hone k1 w1 k2 w2).
  - intros k w Hk. apply Hv in Hk. by apply (Hatt k w).
  - exact Hver.
  - intros k p Hk. by destruct (Hp _ _ Hk) as (_ & _ & _ & _ & _ & ?).
Qed.

Lemma store_ok_promote db pid pending vid created :
  pending_users db !! pid = Some pending → store_ok db →
  store_ok (delete_pending pid
              (with_email_verifications (delete vid)
                 (with_users
                    (add_row (stored_user created (PendingUser.to_user pending)))
                    db))).
Proof.
  intros Hpid [Hfree Hdist Howned Hone Hatt Hver Hst].
  set (user := stored_user created (PendingUser.to_user pending)).
  assert (∀ k p, delete pid (pending_users db) !! k = Some p →
                 k ≠ pid ∧ pending_users db !! k = Some p) as Hp.
  { intros k p Hk. apply lookup_delete_Some in Hk as [??]. by split. }
  assert (∀ k w,
            delete_where (for_pending pid)
              (delete vid (email_verifications db)) !! k = Some w →
            email_verifications db !! k = Some w
            ∧ EmailVerification.pending_user_id w ≠ Some pid) as Hv.
  { intros k w Hk. apply lookup_delete_where in Hk as [Hk Hf].
    apply lookup_delete_Some in Hk as [_ Hk].
    by apply for_pending_false in Hf. }
  split; simpl.
  - intros k p Hk. apply Hp in Hk as [Hne Hk].
    intros (k' & u & Hu & Hau). simpl in Hu.
    apply lookup_add_row in Hu as [[_ ->]|Hu].
    + apply Hne. apply (Hdist k p pid pending Hk Hpid). left.
      by rewrite <-Hau.
    + apply (Hfree k p Hk). by exists k', u.
  - intros k1 p1 k2 p2 H1 H2. apply Hp in H1 as [_ H1], H2 as [_ H2].
    by apply (Hdist k1 p1 k2 p2).
  - intros k w Hk. apply Hv in Hk as [Hk Hne].
    destruct (Howned k w Hk) as (pid' & Hpid' & Hsome).
    exists pid'. split; [done|].
    rewrite lookup_delete_ne; [done|]. congruence.
  - intros k1 w1 k2 w2 H1 H2. apply Hv in H1 as [H1 _], H2 as [H2 _].
    by apply (Hone k1 w1 k2 w2).
  - intros k w Hk. apply Hv in Hk as [Hk _]. by apply (Hatt k w).
  - intros k u Hu. apply lookup_add_row in Hu as [[_ ->]|Hu]; [done|].
    by apply (Hver k u).
  - intros k p Hk. apply Hp in Hk as [_ Hk]. by apply (Hst k p).
Qed.

Lemma store_ok_verify_pending_user db pid code now created :
  store_ok db → store_ok (verify_pending_user db pid code now created).2.
Proof.
  intros Hok. unfold verify_pending_user.
  destruct (pending_users db !! pid) as [pending|] eqn:Hp; [|done].
  destruct (latest_verification db pid) as [[vid v]|] eqn:Hl; [|done].
  apply latest_verification_Some in Hl as [Hvid _].
  destruct (EmailVerification.is_expired now v); [done|].
  destruct (bool_decide (EmailVerification.attempts v >= 5)) eqn:Ha; [done|].
  apply bool_decide_eq_false in Ha.
  destruct (bool_decide (EmailVerification.code v ≠ code)).
  { simpl. apply store_ok_set_attempts; [done| |done].
    pose proof (ok_attempts db Hok vid v Hvid). lia. }
  destruct (bool_decide (is_Some (user_by_email db (PendingUser.email pending)))
            || bool_decide (is_Some (user_by_username db
                                       (PendingUser.username pending)))).
  { simpl. by apply store_ok_mark_expired. }
  destruct (violates_unique db (PendingUser.to_user pending)); [done|].
  simpl. by apply store_ok_promote.
Qed.

Lemma store_ok_signup db session form e :
  store_ok db → store_ok (signup db session form e).1.2.
Proof.
  intros Hok. unfold signup.
  repeat (match goal with
          | |- context [if ?b then _ else _] =>
              lazymatch b with
              | se_mail_ok _ => fail
              | _ => destruct b eqn:?; [done|]
              end
          end).
  destruct (create_pending_user db _ _ _ _ e)
    as [[[pid pending]|ex] db1] eqn:Hc.
  2:{ pose proof (create_pending_user_frame db (strip (f_username form))
                    (lower (strip (f_email form)))
                    (strip (default ""%string (f_name form)))
                    (default "other"%string (f_gender form)) e) as Hf.
      rewrite Hc in Hf. by destruct Hf as [-> _]. }
  pose proof (create_pending_user_frame db (strip (f_username form))
                (lower (strip (f_email form)))
                (strip (default ""%string (f_name form)))
                (default "other"%string (f_gender form)) e) as Hf.
  rewrite Hc in Hf.
  destruct Hf as (_ & _ & _ & _ & _ & Hu & He & Hs & _ & Hfu & Hfp).
  apply create_pending_user_Return in Hc as Hc'. destruct Hc' as (-> & -> & _).
  assert (store_ok (with_pending_users (add_row pending) db)) as Hok1.
  { apply store_ok_add_pending; try done.
    - intros (k & u & Hk & Ha). by apply (Hfu k u).
    - intros k p Hk. split; [by apply (Hfp k p)|].
      match goal with
      | H1 : _ || bool_decide (is_Some (pending_by_email _ _)) = false,
        H2 : _ || bool_decide (is_Some (pending_by_username _ _)) = false |- _ =>
          apply orb_false_iff in H1 as [_ H1];
          apply orb_false_iff in H2 as [_ H2];
          rewrite no_pending_by_email in H1;
          rewrite no_pending_by_username in H2;
          rewrite He, Hu; split; [by apply (H1 k p)|by apply (H2 k p)]
      end. }
  assert (store_ok (create_verification_code
                      (with_pending_users (add_row pending) db)
                      (next_id (pending_users db)) (se_issue e)).2) as Hok2.
  { apply store_ok_create_verification_code; [|done].
    simpl. unfold add_row. rewrite lookup_insert_eq. by eexists. }
  destruct (se_mail_ok e); simpl; [done|].
  by apply (store_ok_delete_pending _ (next_id (pending_users db))) in Hok2.
Qed.

Lemma store_ok_resend_code app session e :
  store_ok (db app) → store_ok (db (resend_code app session e).1.2).
Proof.
  intros Hok. unfold resend_code.
  destruct (session !! "pending_id"%string) as [pid|]; [|done].
  destruct (pending_users (db app) !! pid) as [pending|] eqn:Hp; [|done].
  destruct (rate_limited _ _ _); [done|]. simpl.
  by apply (store_ok_create_verification_code (db app) pid (re_issue e)).
Qed.

Lemma store_ok_verify_code d session req now created :
  store_ok d → store_ok (verify_code d session req now created).1.2.
Proof.
  intros Hok. unfold verify_code.
  destruct (session !! "pending_id"%string) as [pid|]; [|done].
  destruct (pending_users d !! pid) as [pending|]; [|done].
  destruct req as [|form_code]; [done|].
  pose proof (store_ok_verify_pending_user d pid (strip form_code) now created
                Hok) as H.
  by destruct (verify_pending_user d pid (strip form_code) now created)
    as [[[[[uid user]|] msg]|ex] d'].
Qed.

Lemma store_ok_handle app r : store_ok (db app) → store_ok (db (handle app r)).
Proof.
  intros Hok. destruct r as [session form e|session e|session req now created].
  - by apply store_ok_signup.
  - by apply store_ok_resend_code.
  - by apply store_ok_verify_code.
Qed.

Lemma store_ok_serve app rs : store_ok (db app) → store_ok (db (serve app rs)).
Proof.
  revert app. induction rs as [|r rs IH]; intros app Hok; [done|].
  simpl. apply IH. by apply store_ok_handle.
Qed.

Lemma store_ok_reachable rs : store_ok (db (serve empty_app rs)).
Proof. apply store_ok_serve, store_ok_empty. Qed.

(** X7: on every store that signups, resends and verifications (in any
    order, with any sessions and inputs) build from the empty one,
    [verify_pending_user] never raises: the registration's [assigned_id] is
    held by no account, so the UNIQUE constraint of [users] cannot fail and
    [verify_code] always answers with a page. *)
Theorem verify_never_raises rs :
  let d := db (serve empty_app rs) in
  (∀ pid code now created ex,
     (verify_pending_user d pid code now created).1 ≠ Raise ex)
  ∧ (∀ session req now created ex,
       (verify_code d session req now created).1.1 ≠ Raise ex)
  ∧ (∀ k p, pending_users d !! k = Some p → ¬ assigned_id_conflict d p).
Proof.
  intros d. pose proof (store_ok_reachable rs) as Hok. fold d in Hok.
  assert (∀ pid code now created ex,
            (verify_pending_user d pid code now created).1 ≠ Raise ex) as Hv.
  { intros pid code now created ex.
    destruct (pending_users d !! pid) as [pending|] eqn:Hp.
    - pose proof (verify_pending_user_cases d pid pending code now created Hp)
        as Hcases. simpl in Hcases.
      destruct Hcases as [[-> _]|(vid & v & Hl & Hn & Hcases)]; [done|].
      destruct Hcases as [[-> _]|[[-> _]|(_ & _ & Ha & Hc)]]; [done..|].
      destruct (bool_decide (is_Some (user_by_email d (PendingUser.email pending)))
                || bool_decide (is_Some (user_by_username d
                                           (PendingUser.username pending))))
        eqn:Hx.
      + apply conflict_check_true in Hx.
        by rewrite (verify_already_exists d pid pending vid v).
      + apply conflict_check_false in Hx.
        rewrite (verify_success d pid pending vid v); try done.
        by apply (ok_free d Hok pid pending).
    - unfold verify_pending_user. by rewrite Hp. }
  split; [exact Hv|]. split; [|exact (ok_free d Hok)].
  intros session req now created ex. unfold verify_code.
  destruct (session !! "pending_id"%string) as [pid|]; [|done].
  destruct (pending_users d !! pid) as [pending|]; [|done].
  destruct req as [|form_code]; [done|].
  specialize (Hv pid (strip form_code) now created).
  destruct (verify_pending_user d pid (strip form_code) now created)
    as [[[[[uid user]|] msg]|ex'] d']; try done.
  by destruct (Hv ex').
Qed.

(** X8: on every store the handlers build from the empty one, every code
    belongs to an existing registration, a registration has at most one
    code, and the attempts counter of a code lies between 0 and 5. *)
Theorem reachable_codes rs :
  let d := db (serve empty_app rs) in
  (∀ k v, email_verifications d !! k = Some v →
          ∃ pid, EmailVerification.pending_user_id v = Some pid
                 ∧ is_Some (pending_users d !! pid))
  ∧ (∀ pid, (length (codes_of d pid) ≤ 1)%nat)
  ∧ (∀ k v, email_verifications d !! k = Some v →
            0 ≤ EmailVerification.attempts v ≤ 5).
Proof.
  intros d. pose proof (store_ok_reachable rs) as Hok. fold d in Hok.
  split; [exact (ok_owned d Hok)|]. split; [|exact (ok_attempts d Hok)].
  intros pid. pose proof (NoDup_filter_by (for_pending pid)
                            (email_verifications d)) as Hnd.
  fold (codes_of d pid) in Hnd.
  destruct (codes_of d pid) as [|[k1 v1] [|[k2 v2] l]] eqn:E; simpl; [lia..|].
  exfalso.
  assert ((k1, v1) ∈ codes_of d pid) as H1 by (rewrite E; left).
  assert ((k2, v2) ∈ codes_of d pid) as H2 by (rewrite E; right; left).
  apply elem_of_codes_of in H1 as [H1 P1], H2 as [H2 P2].
  assert (k1 = k2) as <- by (apply (ok_one d Hok k1 v1 k2 v2); congruence).
  assert (v1 = v2) as <- by congruence.
  apply NoDup_cons in Hnd as [Hnd _]. apply Hnd. left.
Qed.

(** X9: on every store the handlers build from the empty one, no two
    registrations share an e-mail, a username or an [assigned_id], every
    registration's status is 'pending' or 'expired', and every account is
    verified. *)
Theorem reachable_registrations rs :
  let d := db (serve empty_app rs) in
  (∀ k1 p1 k2 p2,
     pending_users d !! k1 = Some p1 → pending_users d !! k2 = Some p2 →
     k1 ≠ k2 →
     PendingUser.email p1 ≠ PendingUser.email p2
     ∧ PendingUser.username p1 ≠ PendingUser.username p2
     ∧ PendingUser.assigned_id p1 ≠ PendingUser.assigned_id p2)
  ∧ (∀ k p, pending_users d !! k = Some p →
            PendingUser.status p = "pending"%string
            ∨ PendingUser.status p = "expired"%string)
  ∧ (∀ k u, users d !! k = Some u → User.is_verified u = true).
Proof.
  intros d. pose proof (store_ok_reachable rs) as Hok. fold d in Hok.
  split; [|split; [exact (ok_status d Hok)|exact (ok_verified d Hok)]].
  intros k1 p1 k2 p2 H1 H2 Hne.
  repeat split; intros Heq; apply Hne;
    apply (ok_distinct d Hok k1 p1 k2 p2 H1 H2); auto.
Qed.

(** ** The /verify handler *)






(** ** Resends and other registrations *)

Lemma user_key_inj pid1 pid2 : user_key pid1 = user_key pid2 → pid1 = pid2.
Proof.
  unfold user_key. simpl. intros [= H]. by apply pretty_Z_inj.
Qed.

Lemma latest_verification_ext db1 db2 pid :
  (∀ k v, EmailVerification.pending_user_id v = Some pid →
          email_verifications db1 !! k = Some v ↔
          email_verifications db2 !! k = Some v) →
  latest_verification db1 pid = latest_verification db2 pid.
Proof.
  assert (∀ d1 d2 r,
            (∀ k v, EmailVerification.pending_user_id v = Some pid →
                    email_verifications d1 !! k = Some v ↔
                    email_verifications d2 !! k = Some v) →
            r ∈ codes_of d1 pid → r ∈ codes_of d2 pid) as Hsub.
  { intros d1 d2 [k v] Hiff Hin. apply elem_of_codes_of in Hin as [Hk Hv].
    apply elem_of_codes_of. split; [by apply Hiff|done]. }
  intros Hiff.
  assert (∀ k v, EmailVerification.pending_user_id v = Some pid →
                 email_verifications db2 !! k = Some v ↔
                 email_verifications db1 !! k = Some v) as Hiff'.
  { intros k v Hv. by rewrite Hiff. }
  destruct (latest_verification db1 pid) as [[vid v]|] eqn:E1.
  - symmetry. apply latest_verification_iff in E1 as [Hin Hmax].
    apply latest_verification_iff. split; [by apply (Hsub db1 db2)|].
    intros r' Hr'. apply Hmax. by apply (Hsub db2 db1).
  - destruct (latest_verification db2 pid) as [[vid v]|] eqn:E2; [|done].
    apply latest_verification_iff in E2 as [Hin _].
    apply (Hsub db2 db1 _ Hiff') in Hin.
    unfold latest_verification in E1. fold (codes_of db1 pid) in E1.
    apply first_created_at_desc_None in E1. rewrite E1 in Hin.
    by apply elem_of_nil in Hin.
Qed.

(** X11: the handlers keep registrations apart.  Whatever [resend_code]
    does for the registration of its session, the codes, the current code
    and the throttle entry of every other registration stay as they were,
    and [users] and [pending_users] are never touched. *)
Theorem resend_code_isolated app session e other :
  session !! "pending_id"%string ≠ Some other →
  let app' := (resend_code app session e).1.2 in
  (∀ k v, EmailVerification.pending_user_id v = Some other →
          email_verifications (db app') !! k = Some v ↔
          email_verifications (db app) !! k = Some v)
  ∧ latest_verification (db app') other = latest_verification (db app) other
  ∧ recent_resends app' !! user_key other
    = recent_resends app !! user_key other
  ∧ users (db app') = users (db app)
  ∧ pending_users (db app') = pending_users (db app).
Proof.
  intros Hother app'.
  assert ((∀ k v, EmailVerification.pending_user_id v = Some other →
                  email_verifications (db app') !! k = Some v ↔
                  email_verifications (db app) !! k = Some v)
          ∧ recent_resends app' !! user_key other
            = recent_resends app !! user_key other
          ∧ users (db app') = users (db app)
          ∧ pending_users (db app') = pending_users (db app)) as (H1 & H2 & H3 & H4).
  { unfold app', resend_code.
    destruct (session !! "pending_id"%string) as [pid|]; [|done].
    destruct (pending_users (db app) !! pid) as [pending|]; [|done].
    destruct (rate_limited _ _ _); [done|]. simpl.
    assert (pid ≠ other) as Hne by congruence.
    split; [|split; [|done]].
    - intros k v Hv.
      apply (create_verification_code_others (db app) pid (re_issue e)).
      congruence.
    - unfold note_resend.
      destruct (recent_resends app !! user_key pid) as [[l c]|];
        rewrite lookup_insert_ne; try done;
        intros Hk; by apply user_key_inj in Hk. }
  split; [exact H1|]. split; [|done].
  by apply latest_verification_ext.
Qed.

(** X12: a resend that is let through makes the registration verifiable
    again, whatever state its old code was in (expired, locked after five
    attempts, or missing).  The registration then has one code, the mailed
    one, with no attempts and ten minutes to live; within that time the
    mailed code promotes the registration (when no account holds its
    identity) and any other code, the old one included, is answered with
    "Invalid verification code".  The throttle entry counts one resend
    more, starting from 1. *)
Theorem resend_code_renews app session e pid pending :
  session !! "pending_id"%string = Some pid →
  pending_users (db app) !! pid = Some pending →
  rate_limited (recent_resends app) (user_key pid) (re_current_time e) = false →
  let res := resend_code app session e in
  let d' := db res.1.2 in
  let code := format_06d (ie_rand (re_issue e)) in
  mailed res.1.1
  = Some (PendingUser.email pending, PendingUser.username pending, code)
  ∧ (∃ vid v, codes_of d' pid = [(vid, v)]
              ∧ EmailVerification.code v = code
              ∧ EmailVerification.attempts v = 0
              ∧ EmailVerification.expires_at v
                = ie_now (re_issue e) + minutes 10)
  ∧ recent_resends res.1.2 !! user_key pid
    = Some (re_current_time e,
            match recent_resends app !! user_key pid with
            | Some (_, count) => count + 1
            | None => 1
            end)
  ∧ (∀ now created,
       now ≤ ie_now (re_issue e) + minutes 10 →
       ¬ account_conflict (db app) pending →
       ¬ assigned_id_conflict (db app) pending →
       is_success (verify_pending_user d' pid code now created).1 = true)
  ∧ (∀ other now created,
       now ≤ ie_now (re_issue e) + minutes 10 →
       other ≠ code →
       (verify_pending_user d' pid other now created).1
       = Return (None, "Invalid verification code"%string)).
Proof.
  intros Hs Hp Hr res d' code. unfold d', res.
  rewrite (resend_code_issued app session e pid pending Hs Hp Hr). simpl.
  split; [done|]. split.
  { exists (issued_id (db app) pid), (new_verification pid (re_issue e)).
    split; [apply create_verification_code_codes|done]. }
  split; [apply note_resend_lookup|]. split.
  - intros now created Hn Hc Ha.
    rewrite (verify_success _ pid pending (issued_id (db app) pid)
               (new_verification pid (re_issue e))); try done.
    apply latest_verification_create.
  - intros other now created Hn Hne.
    rewrite (verify_invalid_code _ pid pending (issued_id (db app) pid)
               (new_verification pid (re_issue e))); try done.
    apply latest_verification_create.
Qed.

(** X13: [verify_pending_user] for one registration leaves the others
    alone: every other registration row, the codes and the current code of
    every other registration are unchanged.  It never removes or alters an
    account, and it never creates a code: a code row that exists afterwards
    existed before, with the same content except for an [attempts] counter
    that did not go down. *)
Theorem verify_pending_user_isolated db pid code now created :
  let db' := (verify_pending_user db pid code now created).2 in
  (∀ other, other ≠ pid →
     pending_users db' !! other = pending_users db !! other
     ∧ (∀ k v, EmailVerification.pending_user_id v = Some other →
               email_verifications db' !! k = Some v ↔
               email_verifications db !! k = Some v)
     ∧ latest_verification db' other = latest_verification db other)
  ∧ (∀ k u, users db !! k = Some u → users db' !! k = Some u)
  ∧ (∀ k v, email_verifications db' !! k = Some v →
            ∃ v0, email_verifications db !! k = Some v0
                  ∧ EmailVerification.set_attempts
                      (EmailVerification.attempts v0) v = v0
                  ∧ EmailVerification.attempts v0
                    ≤ EmailVerification.attempts v).
Proof.
  intros db'.
  assert ((∀ other, other ≠ pid →
             pending_users db' !! other = pending_users db !! other
             ∧ (∀ k v, EmailVerification.pending_user_id v = Some other →
                       email_verifications db' !! k = Some v ↔
                       email_verifications db !! k = Some v))
          ∧ (∀ k u, users db !! k = Some u → users db' !! k = Some u)
          ∧ (∀ k v, email_verifications db' !! k = Some v →
                    ∃ v0, email_verifications db !! k = Some v0
                          ∧ EmailVerification.set_attempts
                              (EmailVerification.attempts v0) v = v0
                          ∧ EmailVerification.attempts v0
                            ≤ EmailVerification.attempts v)) as (H1 & H2 & H3).
  { assert (∀ v : EmailVerification.t,
              EmailVerification.set_attempts (EmailVerification.attempts v) v = v)
      as Hid by (by intros []).
    unfold db', verify_pending_user.
    destruct (pending_users db !! pid) as [pending|] eqn:Hp;
      [|by split; [|split; [|intros k v ?; exists v; rewrite Hid]]].
    destruct (latest_verification db pid) as [[vid v]|] eqn:Hl;
      [|by split; [|split; [|intros k w ?; exists w; rewrite Hid]]].
    apply latest_verification_Some in Hl as [Hvid Hvpid].
    destruct (EmailVerification.is_expired now v);
      [by split; [|split; [|intros k w ?; exists w; rewrite Hid]]|].
    destruct (bool_decide (EmailVerification.attempts v >= 5));
      [by split; [|split; [|intros k w ?; exists w; rewrite Hid]]|].
    destruct (bool_decide (EmailVerification.code v ≠ code)).
    { simpl. split; [|split; [done|]].
      - intros other Hne. split; [done|]. intros k w Hw.
        destruct (decide (vid = k)) as [<-|Hk].
        + rewrite lookup_insert_eq, Hvid. split; intros [= <-];
            simpl in Hw; congruence.
        + by rewrite lookup_insert_ne.
      - intros k w Hk. destruct (decide (vid = k)) as [<-|Hne].
        + rewrite lookup_insert_eq in Hk. injection Hk as <-.
          exists v. split; [done|]. split; [by destruct v|simpl; lia].
        + rewrite lookup_insert_ne in Hk by done. exists w.
          by rewrite Hid. }
    destruct (bool_decide (is_Some (user_by_email db (PendingUser.email pending)))
              || bool_decide (is_Some (user_by_username db
                                         (PendingUser.username pending)))).
    { simpl. split; [|split; [done|]].
      - intros other Hne. split; [by rewrite lookup_insert_ne|].
        intros k w Hw. rewrite lookup_delete_Some. split; [by intros [_ ?]|].
        intros Hk. split; [|done]. intros <-. congruence.
      - intros k w Hk. apply lookup_delete_Some in Hk as [_ Hk].
        exists w. by rewrite Hid. }
    destruct (violates_unique db (PendingUser.to_user pending));
      [by split; [|split; [|intros k w ?; exists w; rewrite Hid]]|].
    simpl. split; [|split].
    - intros other Hne. split; [by rewrite lookup_delete_ne|].
      intros k w Hw. rewrite lookup_delete_where, lookup_delete_Some.
      split; [by intros [[_ ?] _]|]. intros Hk. split.
      + split; [|done]. intros <-. congruence.
      + apply for_pending_false. congruence.
    - intros k u Hk. by apply lookup_add_row_old.
    - intros k w Hk. apply lookup_delete_where in Hk as [Hk _].
      apply lookup_delete_Some in Hk as [_ Hk]. exists w. by rewrite Hid. }
  split; [|done]. intros other Hne. destruct (H1 other Hne) as [Ha Hb].
  split; [done|]. split; [done|]. by apply latest_verification_ext.
Qed.

(** ** Logging in *)



Lemma authenticate_user_Some check db login_input password uid user :
  authenticate_user check db login_input password = Some (uid, user) →
  users db !! uid = Some user
  ∧ (User.email user = login_input ∨ User.username user = login_input)
  ∧ check (User.password_hash user) password = true.
Proof.
  unfold authenticate_user.
  destruct (first (filter_by _ (users db))) as [[k u]|] eqn:E; [|done].
  destruct (check (User.password_hash u) password) eqn:Hc; [|done].
  intros [= -> ->]. unfold first in E.
  assert ((uid, user) ∈ filter_by
            (λ u, bool_decide (User.email u = login_input)
                  || bool_decide (User.username u = login_input)) (users db))
    as Hin.
  { destruct (filter_by _ (users db)); simplify_eq/=. left. }
  apply elem_of_filter_by in Hin as [Hk Hor].
  apply orb_true_iff in Hor. rewrite !bool_decide_eq_true in Hor. done.
Qed.

Lemma authenticate_user_None check db login_input password :
  (∀ k u, users db !! k = Some u →
          User.email u ≠ login_input ∧ User.username u ≠ login_input) →
  authenticate_user check db login_input password = None.
Proof.
  intros Hnone. unfold authenticate_user.
  destruct (first (filter_by _ (users db))) as [[k u]|] eqn:E; [|done].
  assert (is_Some (first (filter_by
            (λ u, bool_decide (User.email u = login_input)
                  || bool_decide (User.username u = login_input)) (users db))))
    as Hsome by (rewrite E; by eexists).
  apply first_filter_by_Some in Hsome as (k' & u' & Hk & Hor).
  apply orb_true_iff in Hor. rewrite !bool_decide_eq_true in Hor.
  destruct (Hnone _ _ Hk). by destruct Hor.
Qed.


(** X15: the unverified branch of [login] is dead on the data the
    application creates.  On every store the handlers build from the empty
    one all accounts are verified, so [login] never redirects to the
    verification page and never writes [pending_user_id] into the
    session. *)
Theorem login_never_unverified rs check session req :
  let d := db (serve empty_app rs) in
  r_target (login check d session req).1 ≠ RedirectTo "auth.verify_code"
  ∧ (login check d session req).2 !! "pending_user_id"%string
    = session !! "pending_user_id"%string.
Proof.
  intros d. pose proof (ok_verified d (store_ok_reachable rs)) as Hver.
  unfold login. destruct req as [|li pw]; [done|].
  destruct (authenticate_user check d (lower (strip li)) pw)
    as [[uid user]|] eqn:Ha; [|done].
  apply authenticate_user_Some in Ha as (Hu & _ & _).
  rewrite (Hver _ _ Hu). simpl. split; [done|].
  by rewrite lookup_delete_ne, lookup_insert_ne.
Qed.

(** ** The handlers of run.py against those of the package *)

(** X16: [resend_code] of run.py and [resend_code] of app/routes/auth.py
    agree: on every input they leave the same database, throttle table and
    session, send the same mail and redirect to the same page (run.py names
    its endpoints without the blueprint prefix); the throttle tests
    [delta < timedelta(hours=1)] and [delta.total_seconds() < 3600] are the
    same test.  They differ only in the text flashed when the mail fails. *)
Theorem run_resend_code_agrees app session e :
  let r := Run.resend_code app session e in
  let a := resend_code app session e in
  r.1.2 = a.1.2
  ∧ r.2 = a.2
  ∧ mailed r.1.1 = mailed a.1.1
  ∧ location a.1.1 = ("auth." +:+ location r.1.1)%string
  ∧ (flashed r.1.1 = flashed a.1.1
     ∨ (re_mail_ok e = false
        ∧ flashed r.1.1
          = ("Failed to send verification email. Please check SMTP settings.",
             "danger")%string
        ∧ flashed a.1.1
          = ("Failed to send verification email. Please check your email settings.",
             "danger")%string)).
Proof.
  intros r a. unfold r, a, Run.resend_code, resend_code.
  destruct (session !! "pending_id"%string) as [pid|]; [|by repeat split; auto].
  destruct (pending_users (db app) !! pid) as [pending|];
    [|by repeat split; auto].
  change ("resend_pending_" +:+ pretty pid)%string with (user_key pid).
  assert (match recent_resends app !! user_key pid with
          | Some (last_resend, count) =>
              bool_decide (re_current_time e - last_resend < hours 1)
              && bool_decide (count >= 3)
          | None => false
          end
          = rate_limited (recent_resends app) (user_key pid) (re_current_time e))
    as ->.
  { unfold rate_limited, total_seconds_lt, hours.
    by destruct (recent_resends app !! user_key pid) as [[l c]|]. }
  destruct (rate_limited _ _ _); [by repeat split; auto|].
  simpl. repeat split; try done.
  destruct (re_mail_ok e); [by left|by right].
Qed.

Local Ltac same_answer :=
  split; [done|]; split; [done|]; split; [done|];
  split; [intros ? ?; by simplify_eq/=|];
  intros ? ?; simplify_eq/=; split; [done|by left].

(** X17: [verify_code] of run.py against [verify_code] of
    app/routes/auth.py.  Both always leave the same registrations and the
    same codes, and the same accounts when the registration has an avatar
    (run.py's model fills a missing one with its default).  run.py never
    lets an exception out: where the package's handler raises
    IntegrityError, run.py reports "An error occurred finalizing
    registration", sends the user to the signup page with session and
    database unchanged, after the welcome mail has already gone out.  Where
    the package's handler answers, both send the same welcome mail (or
    none) and leave the same session, except when an account already holds
    the identity: the package keeps [pending_id] in the session and comes
    back to the verification page, run.py drops it and goes to the login
    page. *)
Theorem run_verify_code_agrees db session req now created :
  let r := Run.verify_code db session req now created in
  let a := verify_code db session req now created in
  pending_users r.1.2 = pending_users a.1.2
  ∧ email_verifications r.1.2 = email_verifications a.1.2
  ∧ ((∀ pid pending,
        session !! "pending_id"%string = Some pid →
        pending_users db !! pid = Some pending →
        is_Some (PendingUser.avatar pending)) →
     users r.1.2 = users a.1.2)
  ∧ (∀ ex, a.1.1 = Raise ex →
       ex = IntegrityError
       ∧ r.1.2 = db ∧ r.2 = session ∧ a.2 = session
       ∧ r_target r.1.1 = RedirectTo "signup"
       ∧ r_flash r.1.1
         = Some ("An error occurred finalizing registration. Please try again.",
                 "danger")%string
       ∧ r_welcome r.1.1 ≠ None)
  ∧ (∀ reply, a.1.1 = Return reply →
       r_welcome r.1.1 = r_welcome reply
       ∧ (r.2 = a.2
          ∨ (r_flash reply = Some ("User already exists", "danger")%string
             ∧ a.2 = session
             ∧ r_target reply = RedirectTo "auth.verify_code"
             ∧ r.2 = delete "pending_id"%string session
             ∧ r_target r.1.1 = RedirectTo "login"))).
Proof.
  intros r a. unfold r, a, Run.verify_code, verify_code, verify_pending_user.
  destruct (session !! "pending_id"%string) as [pid|];
    [|same_answer].
  destruct (pending_users db !! pid) as [pending|] eqn:Hp;
    [|same_answer].
  destruct req as [|form_code];
    [same_answer|].
  destruct (latest_verification db pid) as [[vid v]|];
    [|same_answer].
  unfold EmailVerification.is_expired.
  destruct (decide (now > EmailVerification.expires_at v)) as [He|He].
  { rewrite (bool_decide_eq_true_2 (now > EmailVerification.expires_at v))
      by done.
    rewrite (bool_decide_eq_true_2 (EmailVerification.expires_at v < now))
      by lia.
    same_answer. }
  rewrite (bool_decide_eq_false_2 (now > EmailVerification.expires_at v))
    by done.
  rewrite (bool_decide_eq_false_2 (EmailVerification.expires_at v < now))
    by lia.
  destruct (bool_decide (EmailVerification.attempts v >= 5));
    [same_answer|].
  destruct (decide (EmailVerification.code v = strip form_code)) as [Hc|Hc].
  2:{ rewrite (bool_decide_eq_false_2 _ Hc), (bool_decide_eq_true_2 _ Hc).
      same_answer. }
  rewrite (bool_decide_eq_true_2 _ Hc).
  rewrite (bool_decide_eq_false_2 (EmailVerification.code v ≠ strip form_code))
    by tauto.
  destruct (bool_decide (is_Some (user_by_email db (PendingUser.email pending)))
            || bool_decide (is_Some (user_by_username db
                                       (PendingUser.username pending)))).
  { split; [done|]. split; [done|]. split; [done|].
    split; [intros ? ?; by simplify_eq/=|].
    intros ? ?. simplify_eq/=. split; [done|]. right. by repeat split. }
  destruct (violates_unique db (PendingUser.to_user pending)); simpl.
  - split; [done|]. split; [done|]. split; [done|].
    split; [|intros ? ?; by simplify_eq/=].
    intros ? ?. simplify_eq/=. by repeat split.
  - split; [done|]. split; [done|].
    split; [|split; [intros ? ?; by simplify_eq/=|]].
    + intros Hav. destruct (Hav pid pending eq_refl Hp) as [av Hav'].
      unfold Run.stored_user, stored_user. simpl. by rewrite Hav'.
    + intros ? ?. simplify_eq/=. split; [done|by left].
Qed.

(** ** The further properties on the example *)




Lemma resend_code_isolated_witness :
  latest_verification
    (db (resend_code (mkApp db_alice ∅) {[ "pending_id"%string := 5 ]}
                     (resend_at 3000)).1.2) 1
  = latest_verification db_alice 1
  ∧ latest_verification
      (db (resend_code (mkApp db_alice ∅) ∅ (resend_at 3000)).1.2) 1
    = Some (1, alice_code).
Proof.
  split.
  - apply (resend_code_isolated (mkApp db_alice ∅)
             {[ "pending_id"%string := 5 ]} (resend_at 3000) 1).
    vm_compute. discriminate.
  - destruct (resend_code_isolated (mkApp db_alice ∅) ∅ (resend_at 3000) 1)
      as (_ & -> & _).
    + vm_compute. discriminate.
    + vm_compute. reflexivity.
Defined.

Lemma resend_code_renews_witness :
  (verify_pending_user db_locked 1 "004711" 2000 2001).1
  = Return (None, "Too many attempts"%string)
  ∧ is_success
      (verify_pending_user
         (db (resend_code (mkApp db_locked ∅) alice_session (resend_at 3000)).1.2)
         1 "001234" 4000 4001).1 = true
  ∧ (verify_pending_user
       (db (resend_code (mkApp db_locked ∅) alice_session (resend_at 3000)).1.2)
       1 "004711" 4000 4001).1
    = Return (None, "Invalid verification code"%string).
Proof.
  destruct (resend_code_renews (mkApp db_locked ∅) alice_session
              (resend_at 3000) 1 alice) as (_ & _ & _ & Hok & Hbad).
  - vm_compute. reflexivity.
  - vm_compute. reflexivity.
  - vm_compute. reflexivity.
  - split; [vm_compute; reflexivity|]. split.
    + apply (Hok 4000 4001).
      * vm_compute. discriminate.
      * intros (k & u & Hk & _). vm_compute in Hk. discriminate.
      * intros (k & u & Hk & _). vm_compute in Hk. discriminate.
    + apply (Hbad "004711"%string 4000 4001).
      * vm_compute. discriminate.
      * vm_compute. discriminate.
Defined.

